(** * express-request-schema-validator: the [createMiddleware] gate

    A shallow embedding of [src/index.ts].  The module exports one function,
    [createMiddleware], which compiles up to three JSON Schemas with Ajv and
    returns an Express request handler.  The handler validates [req.body],
    [req.query] and [req.headers] in that order, answers 400 at the first
    part that is rejected, and calls [next()] otherwise.

    Ajv and Express are third-party packages: the schema engine is a
    parameter of the development (Section [Gate]), and Express' [res] and
    [next] are recorded as events of an effect trace. *)

From Stdlib Require Import ZArith.
From stdpp Require Import base option list strings gmap.

Local Open Scope string_scope.
Local Open Scope list_scope.
Set Warnings "-register-all".

(** ** JavaScript values *)

(** The values the middleware touches: schemas, request parts, error
    parameters and the JSON payload of the 400 response.  Objects keep their
    properties in insertion order, as [JSON.stringify] prints them.  Numbers
    are restricted to integers; only their truthiness matters here. *)
Inductive JsValue : Type :=
| JUndefined
| JNull
| JBool (b : bool)
| JNum (n : Z)
| JStr (s : string)
| JArr (items : list JsValue)
| JObj (props : list (string * JsValue)).

(** [ToBoolean]: what [v ? _ : _], [!v] and [v || _] test. *)
Definition truthy (v : JsValue) : bool :=
  match v with
  | JUndefined | JNull => false
  | JBool b => b
  | JNum n => negb (Z.eqb n 0)
  | JStr s => negb (String.eqb s EmptyString)
  | JArr _ | JObj _ => true
  end.

(** [a || b]. *)
Definition js_or (a b : JsValue) : JsValue :=
  if truthy a then a else b.

(** Property lookup in an object literal. *)
Fixpoint assoc (key : string) (props : list (string * JsValue)) : JsValue :=
  match props with
  | [] => JUndefined
  | (k, v) :: rest => if String.eqb k key then v else assoc key rest
  end.

(** [o?.key]: [undefined] when [o] is [null] or [undefined], the property
    otherwise (a primitive has no own property of that name). *)
Definition opt_member (o : JsValue) (key : string) : JsValue :=
  match o with
  | JObj props => assoc key props
  | _ => JUndefined
  end.

(** An optional string property ([message?: string]). *)
Definition js_opt_string (o : option string) : JsValue :=
  from_option JStr JUndefined o.

(** ** Ajv's interface *)

(** [ErrorObject] of Ajv, with the fields the middleware reads. *)
Record ErrorObject : Type := mkError {
  keyword : string;
  instancePath : string;
  schemaPath : string;
  params : JsValue;
  message : option string
}.

(** What one call [validate(data)] does: the boolean it returns, the value it
    leaves in [validate.errors] ([None] for [null]), and the state of the
    object [data] refers to when the call is over. *)
Record Outcome : Type := mkOutcome {
  valid : bool;
  reported : option (list ErrorObject);
  data_after : JsValue
}.

(** A compiled [ValidateFunction]: a function object, so it has an identity
    ([fn_id]) under which its mutable [errors] property is stored. *)
Record ValidateFunction : Type := mkValidate {
  fn_id : nat;
  fn_call : JsValue -> Outcome
}.

(** [ajv.compile] either throws or returns a validator. *)
Definition Compiled : Type := string + ValidateFunction.

(** ** The mapping of one engine error to one finding (lines 38-43) *)

(** [err.instancePath || err.params?.missingProperty || "root"] *)
Definition finding_field (err : ErrorObject) : JsValue :=
  js_or (js_or (JStr (instancePath err))
               (opt_member (params err) "missingProperty"))
        (JStr "root").

Definition finding (err : ErrorObject) : JsValue :=
  JObj [ ("field", finding_field err);
         ("message", js_opt_string (message err));
         ("keyword", JStr (keyword err));
         ("params", params err) ].

(** [validate.errors?.map(...)] *)
Definition details (errors : option (list ErrorObject)) : JsValue :=
  from_option (fun errs => JArr (map finding errs)) JUndefined errors.

(** ** Express' request and the observable effects *)

(** The three parts of [req] the handler reads, and everything else
    ([params], [cookies], [method], [url], ...) as [others]. *)
Record Request : Type := mkRequest {
  body : JsValue;
  query : JsValue;
  headers : JsValue;
  others : list (string * JsValue)
}.

(** The call sites of a validator inside the handler, in source order. *)
Inductive Part : Type := Body | Query | Headers.

Definition part_data (p : Part) (req : Request) : JsValue :=
  match p with
  | Body => body req
  | Query => query req
  | Headers => headers req
  end.

(** The object [req.<part>] refers to is replaced by its state after a call
    that received it by reference. *)
Definition set_part_data (p : Part) (d : JsValue) (req : Request) : Request :=
  match p with
  | Body => mkRequest d (query req) (headers req) (others req)
  | Query => mkRequest (body req) d (headers req) (others req)
  | Headers => mkRequest (body req) (query req) d (others req)
  end.

(** Calls into Ajv and Express, in the order they happen. *)
Inductive Event : Type :=
| EvNewAjv
| EvAddFormats
| EvCompile (schema : JsValue)
| EvValidate (site : Part) (fn : nat) (data : JsValue)
| EvStatus (code : Z)
| EvJson (payload : JsValue)
| EvNext.

(** The state a call can read and write: the request object, the [errors]
    property of every validator function (absent for [null] and for
    [undefined]), and the trace of calls made so far. *)
Record World : Type := mkWorld {
  request : Request;
  fn_errors : gmap nat (list ErrorObject);
  trace : list Event
}.

(** ** A state monad with exceptions *)

Inductive Result (A : Type) : Type :=
| Ok (a : A) (w : World)
| Thrown (err : string) (w : World).
Arguments Ok {A} a w.
Arguments Thrown {A} err w.

Definition M (A : Type) : Type := World -> Result A.

Definition ret {A} (a : A) : M A := fun w => Ok a w.

Definition bind {A B} (m : M A) (k : A -> M B) : M B :=
  fun w =>
    match m w with
    | Ok a w' => k a w'
    | Thrown e w' => Thrown e w'
    end.

Definition throw {A} (err : string) : M A := fun w => Thrown err w.

Declare Scope js_scope.
Delimit Scope js_scope with js.
Notation "'let!' x ':=' m 'in' k" := (bind m (fun x => k))
  (at level 10, x name, m at level 100, k at level 200) : js_scope.
Notation "m ';;' k" := (bind m (fun _ => k))
  (at level 100, k at level 200, right associativity) : js_scope.
Local Open Scope js_scope.

Definition emit (ev : Event) : M unit :=
  fun w => Ok tt (mkWorld (request w) (fn_errors w) (trace w ++ [ev])).

Definition read_part (p : Part) : M JsValue :=
  fun w => Ok (part_data p (request w)) w.

Definition write_part (p : Part) (d : JsValue) : M unit :=
  fun w => Ok tt (mkWorld (set_part_data p d (request w)) (fn_errors w) (trace w)).

(** [validate.errors = vErrors], done by the generated validator. *)
Definition set_errors (fn : nat) (errs : option (list ErrorObject)) : M unit :=
  fun w =>
    Ok tt (mkWorld (request w)
                   (match errs with
                    | Some es => <[fn := es]> (fn_errors w)
                    | None => delete fn (fn_errors w)
                    end)
                   (trace w)).

(** [validate.errors] *)
Definition get_errors (validate : ValidateFunction) : M (option (list ErrorObject)) :=
  fun w => Ok (fn_errors w !! fn_id validate) w.

(** [validate(req.<part>)]: the validator receives the part by reference,
    leaves its findings in [validate.errors] and returns its verdict. *)
Definition call_validate (site : Part) (validate : ValidateFunction) : M bool :=
  let! data := read_part site in
  emit (EvValidate site (fn_id validate) data);;
  let out := fn_call validate data in
  write_part site (data_after out);;
  set_errors (fn_id validate) (reported out);;
  ret (valid out).

(** [res.status(code)], [res.json(payload)] and [next()]. *)
Definition res_status (code : Z) : M unit := emit (EvStatus code).
Definition res_json (payload : JsValue) : M unit := emit (EvJson payload).
Definition next : M unit := emit EvNext.

(** ** Statements with an early [return] *)

Inductive Flow : Type := Continue | Return.

(** [s1; s2] where [s1] may have executed [return]. *)
Definition seq (s1 s2 : M Flow) : M Flow :=
  let! f := s1 in
  match f with
  | Continue => s2
  | Return => ret Return
  end.
Notation "s1 ';;;' s2" := (seq s1 s2)
  (at level 100, s2 at level 200, right associativity) : js_scope.

(** [if (validate) { ... }] for a variable of type [ValidateFunction | null]. *)
Definition if_set {A} (o : option A) (then_ : A -> M Flow) : M Flow :=
  match o with
  | Some a => then_ a
  | None => ret Continue
  end.

(** The body of a function whose statements return [void]. *)
Definition run_body (s : M Flow) : M unit := s;; ret tt.

(** ** The request handler (lines 31-84) *)

(** The variables the returned arrow function closes over. *)
Record Captured : Type := mkCaptured {
  bodySchema : JsValue;
  querySchema : JsValue;
  headersSchema : JsValue;
  validateBody : option ValidateFunction;
  validateQuery : option ValidateFunction;
  validateHeaders : option ValidateFunction
}.

(** The object literal passed to [res.json]. *)
Definition failure_payload (error : string) (schema : JsValue)
    (errors : option (list ErrorObject)) : JsValue :=
  JObj [ ("error", JStr error); ("schema", schema); ("details", details errors) ].

Definition requestHandler (c : Captured) : M unit :=
  run_body (
    if_set (validateBody c) (fun validateBody =>
      let! valid := call_validate Body validateBody in
      if negb valid then
        res_status 400;;
        let! errors := get_errors validateBody in
        res_json (failure_payload "Request body validation failed"
                                  (bodySchema c) errors);;
        ret Return
      else ret Continue);;;
    if_set (validateQuery c) (fun validateQuery =>
      let! valid := call_validate Query validateQuery in
      if negb valid then
        res_status 400;;
        let! errors := get_errors validateQuery in
        res_json (failure_payload "Query parameters validation failed"
                                  (querySchema c) errors);;
        ret Return
      else ret Continue);;;
    if_set (validateHeaders c) (fun validateHeaders =>
      let! valid := call_validate Headers validateHeaders in
      if negb valid then
        res_status 400;;
        let! errors := get_errors validateHeaders in
        res_json (failure_payload "Headers validation failed"
                                  (headersSchema c) errors);;
        ret Return
      else ret Continue);;;
    next;;
    ret Continue).

(** ** The factory (lines 11-28) *)

(** The destructured parameter: an absent option is [undefined]. *)
Record ValidationSchemas : Type := mkSchemas {
  opt_bodySchema : JsValue;
  opt_querySchema : JsValue;
  opt_headersSchema : JsValue
}.

Section Gate.

(** The schema compiler of the Ajv instance built on lines 16-17. *)
Variable ajv_compile : JsValue -> Compiled.

(** [ajv.compile(schema)] *)
Definition compile (schema : JsValue) : M ValidateFunction :=
  emit (EvCompile schema);;
  match ajv_compile schema with
  | inl err => throw err
  | inr validate => ret validate
  end.

(** [schema ? ajv.compile(schema) : null] *)
Definition compile_if_given (schema : JsValue) : M (option ValidateFunction) :=
  if truthy schema then
    let! validate := compile schema in ret (Some validate)
  else ret None.

Definition createMiddleware (s : ValidationSchemas) : M (M unit) :=
  emit EvNewAjv;;
  emit EvAddFormats;;
  let! validateBody := compile_if_given (opt_bodySchema s) in
  let! validateQuery := compile_if_given (opt_querySchema s) in
  let! validateHeaders := compile_if_given (opt_headersSchema s) in
  ret (requestHandler
         (mkCaptured (opt_bodySchema s) (opt_querySchema s) (opt_headersSchema s)
                     validateBody validateQuery validateHeaders)).

End Gate.

(** ** Vocabulary of the properties *)

Definition validator_for (c : Captured) (p : Part) : option ValidateFunction :=
  match p with
  | Body => validateBody c
  | Query => validateQuery c
  | Headers => validateHeaders c
  end.

Definition schema_for (c : Captured) (p : Part) : JsValue :=
  match p with
  | Body => bodySchema c
  | Query => querySchema c
  | Headers => headersSchema c
  end.

(** The string literal of each block. *)
Definition stage_message (p : Part) : string :=
  match p with
  | Body => "Request body validation failed"
  | Query => "Query parameters validation failed"
  | Headers => "Headers validation failed"
  end.

(** The three blocks of the handler are one block, written three times. *)
Definition stage (p : Part) (c : Captured) : M Flow :=
  if_set (validator_for c p) (fun validate =>
    let! valid := call_validate p validate in
    if negb valid then
      res_status 400;;
      let! errors := get_errors validate in
      res_json (failure_payload (stage_message p) (schema_for c p) errors);;
      ret Return
    else ret Continue).

(** The world right after [validate(req.<part>)] returned [out]. *)
Definition after_call (p : Part) (validate : ValidateFunction) (w : World) : World :=
  let data := part_data p (request w) in
  let out := fn_call validate data in
  mkWorld (set_part_data p (data_after out) (request w))
          (match reported out with
           | Some es => <[fn_id validate := es]> (fn_errors w)
           | None => delete (fn_id validate) (fn_errors w)
           end)
          (trace w ++ [EvValidate p (fn_id validate) data]).

(** The validator configured for part [p] says no to this request. *)
Definition rejects (c : Captured) (req : Request) (p : Part) : bool :=
  match validator_for c p with
  | Some validate => negb (valid (fn_call validate (part_data p req)))
  | None => false
  end.

Definition stage_order : list Part := [Body; Query; Headers].

(** The first part, in the order body, query, headers, that is rejected. *)
Definition first_rejected (c : Captured) (req : Request) : option Part :=
  find (rejects c req) stage_order.

(** The parts a gate that checks [order] from left to right and stops at the
    first rejection has to look at. *)
Fixpoint checked_parts (c : Captured) (req : Request) (order : list Part) : list Part :=
  match order with
  | [] => []
  | p :: rest =>
      match validator_for c p with
      | None => checked_parts c req rest
      | Some validate =>
          p :: (if valid (fn_call validate (part_data p req))
                then checked_parts c req rest else [])
      end
  end.

(** Projections of a trace. *)
Definition validated_sites (evs : list Event) : list Part :=
  omap (fun ev => match ev with EvValidate p _ _ => Some p | _ => None end) evs.

Definition compiled_schemas (evs : list Event) : list JsValue :=
  omap (fun ev => match ev with EvCompile s => Some s | _ => None end) evs.

Definition sent_payloads (evs : list Event) : list JsValue :=
  omap (fun ev => match ev with EvJson p => Some p | _ => None end) evs.

Definition status_codes (evs : list Event) : list Z :=
  omap (fun ev => match ev with EvStatus n => Some n | _ => None end) evs.

Definition next_calls (evs : list Event) : nat :=
  length (omap (fun ev => match ev with EvNext => Some tt | _ => None end) evs).

(** With the options of [new Ajv()] (no [useDefaults], [coerceTypes] or
    [removeAdditional]) a validator only reads the data it is given. *)
Definition leaves_data_intact (validate : ValidateFunction) : Prop :=
  forall data, data_after (fn_call validate data) = data.

Definition validators_read_only (c : Captured) : Prop :=
  forall p validate, validator_for c p = Some validate -> leaves_data_intact validate.

(** The field locator as the specification words it: the instance path if
    non-empty, else the missing property's name if the rule that failed is
    [required], else ["root"]. *)
Definition stated_field (err : ErrorObject) : JsValue :=
  if negb (String.eqb (instancePath err) EmptyString) then JStr (instancePath err)
  else if String.eqb (keyword err) "required"
       then opt_member (params err) "missingProperty"
       else JStr "root".

(** A schema option counts as supplied when it is not [undefined]. *)
Definition supplied (schema : JsValue) : bool :=
  match schema with
  | JUndefined => false
  | _ => true
  end.

Definition schema_options (s : ValidationSchemas) : list JsValue :=
  [opt_bodySchema s; opt_querySchema s; opt_headersSchema s].

(** ** A small engine to run the gate on *)

(** Ajv itself is not part of the repository.  To evaluate the gate on
    concrete requests the development instantiates the engine with the two
    boolean schemas and the [required] keyword, reporting errors the way Ajv
    does (one error, the first missing property, since [allErrors] is off). *)
Module Sample.

Definition accept_all : ValidateFunction :=
  mkValidate 0 (fun data => mkOutcome true None data).

Definition false_schema_error : ErrorObject :=
  mkError "false schema" EmptyString "#/false schema" (JObj [])
          (Some "boolean schema is false").

Definition reject_all : ValidateFunction :=
  mkValidate 1 (fun data => mkOutcome false (Some [false_schema_error]) data).

Definition required_error (name : string) : ErrorObject :=
  mkError "required" EmptyString "#/required"
          (JObj [("missingProperty", JStr name)])
          (Some ("must have required property '" ++ name ++ "'")%string).

Definition missing (data : JsValue) (name : string) : bool :=
  match opt_member data name with
  | JUndefined => true
  | _ => false
  end.

(** [required] constrains objects only; other data passes. *)
Definition check_required (names : list string) (data : JsValue) : Outcome :=
  match data with
  | JObj _ =>
      match find (missing data) names with
      | Some name => mkOutcome false (Some [required_error name]) data
      | None => mkOutcome true None data
      end
  | _ => mkOutcome true None data
  end.

(** The identity is derived from the names: compiling the same schema
    again returns the same function object, as Ajv's cache does. *)
Definition required_validator (names : list string) : ValidateFunction :=
  mkValidate (2 + String.length (String.concat "," names))
             (check_required names).

Fixpoint strings_of (items : list JsValue) : option (list string) :=
  match items with
  | [] => Some []
  | JStr s :: rest => option_map (cons s) (strings_of rest)
  | _ :: _ => None
  end.

Definition ajv_compile (schema : JsValue) : Compiled :=
  match schema with
  | JBool true => inr accept_all
  | JBool false => inr reject_all
  | JObj props =>
      match assoc "required" props with
      | JUndefined => inr accept_all
      | JArr items =>
          match strings_of items with
          | Some names => inr (required_validator names)
          | None => inl "schema is invalid: data/required/0 must be string"
          end
      | _ => inl "schema is invalid: data/required must be array"
      end
  | _ => inl "schema must be object or boolean"
  end.

(** A validator as Ajv builds it with [useDefaults]: it writes into the
    data.  [new Ajv()] does not build such validators. *)
Definition defaulting_validator : ValidateFunction :=
  mkValidate 9 (fun data =>
    match data with
    | JObj props => mkOutcome true None (JObj (props ++ [("role", JStr "user")]))
    | _ => mkOutcome true None data
    end).

(** The error Ajv reports for [{dependencies: {a: ["b"]}}] on [{a: 1}]. *)
Definition dependencies_error : ErrorObject :=
  mkError "dependencies" EmptyString "#/dependencies"
          (JObj [("property", JStr "a"); ("missingProperty", JStr "b");
                 ("depsCount", JNum 1); ("deps", JStr "b")])
          (Some "must have property b when property a is present").

(** The error Ajv reports for [{properties: {email: {format: "email"}}}]
    on [{email: "bad"}]. *)
Definition format_error : ErrorObject :=
  mkError "format" "/email" "#/properties/email/format"
          (JObj [("format", JStr "email")])
          (Some "must match format email").

Definition user_schema : JsValue :=
  JObj [("type", JStr "object"); ("required", JArr [JStr "email"; JStr "name"])].

Definition page_schema : JsValue :=
  JObj [("type", JStr "object"); ("required", JArr [JStr "page"])].

Definition key_schema : JsValue :=
  JObj [("type", JStr "object"); ("required", JArr [JStr "x-api-key"])].

Definition gate : Captured :=
  mkCaptured user_schema page_schema key_schema
             (Some (required_validator ["email"; "name"]))
             (Some (required_validator ["page"]))
             (Some (required_validator ["x-api-key"])).

Definition empty_world (req : Request) : World := mkWorld req ∅ [].

(** Body and query both violate their schema. *)
Definition bad_request : Request :=
  mkRequest (JObj [("name", JStr "Al")]) (JObj []) (JObj [])
            [("method", JStr "POST")].

(** Every part satisfies its schema. *)
Definition good_request : Request :=
  mkRequest (JObj [("name", JStr "Al"); ("email", JStr "a@b.com")])
            (JObj [("page", JStr "1")])
            (JObj [("x-api-key", JStr "k")])
            [("method", JStr "POST")].

(** The same three parts as [good_request], everything else different. *)
Definition good_request' : Request :=
  mkRequest (body good_request) (query good_request) (headers good_request)
            [("method", JStr "PUT"); ("url", JStr "/users")].

End Sample.

(** ** What a run of the handler adds to the trace *)

(** The 400 response of the block for part [p]. *)
Definition refusal_events (p : Part) (c : Captured) (validate : ValidateFunction)
    (req : Request) : list Event :=
  [ EvStatus 400;
    EvJson (failure_payload (stage_message p) (schema_for c p)
                            (reported (fn_call validate (part_data p req)))) ].

(** The world after the block for part [p] answered 400. *)
Definition after_refusal (p : Part) (c : Captured) (validate : ValidateFunction)
    (w : World) : World :=
  let w1 := after_call p validate w in
  mkWorld (request w1) (fn_errors w1)
          (trace w1 ++ refusal_events p c validate (request w)).

(** The calls a run over the blocks [order] makes on request [req]. *)
Fixpoint gate_events (c : Captured) (req : Request) (order : list Part) : list Event :=
  match order with
  | [] => [EvNext]
  | p :: rest =>
      match validator_for c p with
      | None => gate_events c req rest
      | Some validate =>
          EvValidate p (fn_id validate) (part_data p req)
          :: (if valid (fn_call validate (part_data p req))
              then gate_events c req rest
              else refusal_events p c validate req)
      end
  end.

(** The blocks [order] one after the other, then [next()]. *)
Fixpoint stages (order : list Part) (c : Captured) : M Flow :=
  match order with
  | [] => next;; ret Continue
  | p :: rest => stage p c;;; stages rest c
  end.

(** Every configured validator accepts the part it is configured for. *)
Definition all_accept (c : Captured) (req : Request) : Prop :=
  forall p validate,
    validator_for c p = Some validate ->
    valid (fn_call validate (part_data p req)) = true.

(** A stretch of trace in which nothing happens but validator calls. *)
Definition only_checks (evs : list Event) : Prop :=
  Forall (fun ev => match ev with EvValidate _ _ _ => True | _ => False end) evs.

(** ** Vocabulary of the factory's properties *)

(** The world a computation ends in, whether it returned or threw. *)
Definition final_world {A} (r : Result A) : World :=
  match r with
  | Ok _ w => w
  | Thrown _ w => w
  end.

(** The schemas a left-to-right pass hands to the compiler when it stops at
    the first one the compiler refuses. *)
Fixpoint attempted (ajv_compile : JsValue -> Compiled) (schemas : list JsValue)
    : list JsValue :=
  match schemas with
  | [] => []
  | schema :: rest =>
      schema :: match ajv_compile schema with
                | inr _ => attempted ajv_compile rest
                | inl _ => []
                end
  end.

(** The options with every falsy schema left out. *)
Definition absent_if_falsy (schema : JsValue) : JsValue :=
  if truthy schema then schema else JUndefined.

Definition drop_falsy (s : ValidationSchemas) : ValidationSchemas :=
  mkSchemas (absent_if_falsy (opt_bodySchema s))
            (absent_if_falsy (opt_querySchema s))
            (absent_if_falsy (opt_headersSchema s)).

(** The validator the factory keeps for a schema option (lines 19-27) when
    no compilation throws: none for a falsy schema. *)
Definition kept_validator (ajv_compile : JsValue -> Compiled) (schema : JsValue)
    : option ValidateFunction :=
  if truthy schema then
    match ajv_compile schema with
    | inr validate => Some validate
    | inl _ => None
    end
  else None.

(** What the handler returned for the options [s] closes over. *)
Definition captured_by (ajv_compile : JsValue -> Compiled) (s : ValidationSchemas)
    : Captured :=
  mkCaptured (opt_bodySchema s) (opt_querySchema s) (opt_headersSchema s)
             (kept_validator ajv_compile (opt_bodySchema s))
             (kept_validator ajv_compile (opt_querySchema s))
             (kept_validator ajv_compile (opt_headersSchema s)).

(** A validator that says no and leaves [null] in [validate.errors]. *)
Definition silent_rejector : ValidateFunction :=
  mkValidate 7 (fun data => mkOutcome false None data).

(** * Properties *)

(** ** The handler, block by block *)

Lemma requestHandler_stages c :
  requestHandler c = run_body (stages stage_order c).
Proof. reflexivity. Qed.

Lemma errors_after_call p validate w :
  fn_errors (after_call p validate w) !! fn_id validate
  = reported (fn_call validate (part_data p (request w))).
Proof.
  unfold after_call; simpl.
  destruct (reported _); [apply lookup_insert_eq | apply lookup_delete_eq].
Qed.

Lemma stage_run p c w :
  stage p c w =
  match validator_for c p with
  | None => Ok Continue w
  | Some validate =>
      if valid (fn_call validate (part_data p (request w)))
      then Ok Continue (after_call p validate w)
      else Ok Return (after_refusal p c validate w)
  end.
Proof.
  unfold stage, if_set.
  destruct (validator_for c p) as [validate|]; [|reflexivity].
  unfold call_validate, bind, read_part, emit, write_part, set_errors, ret; simpl.
  destruct (valid (fn_call validate (part_data p (request w)))) eqn:Hv; simpl;
    [reflexivity|].
  unfold get_errors, res_status, res_json, emit; simpl.
  pose proof (errors_after_call p validate w) as He.
  unfold after_call in He; simpl in He. rewrite He.
  unfold after_refusal, after_call, refusal_events; simpl.
  rewrite <- !app_assoc. reflexivity.
Qed.

Lemma part_data_set_other p q d req :
  p <> q -> part_data q (set_part_data p d req) = part_data q req.
Proof. destruct p, q; simpl; congruence. Qed.

Lemma set_part_data_same p req :
  set_part_data p (part_data p req) req = req.
Proof. destruct p, req; reflexivity. Qed.

Lemma others_set_part_data p d req :
  others (set_part_data p d req) = others req.
Proof. destruct p; reflexivity. Qed.

(** The events of a run are a function of the parts that are checked. *)
Lemma gate_events_ext c r1 r2 order :
  (forall q, q ∈ order -> part_data q r1 = part_data q r2) ->
  gate_events c r1 order = gate_events c r2 order.
Proof.
  induction order as [|p rest IH]; intros Hparts; simpl; [reflexivity|].
  assert (Hrest : gate_events c r1 rest = gate_events c r2 rest).
  { apply IH. intros q Hq. apply Hparts. now right. }
  assert (Hp : part_data p r1 = part_data p r2) by (apply Hparts; now left).
  unfold refusal_events. rewrite Hp, Hrest. reflexivity.
Qed.

(** Adequacy of [gate_events]: a run of the blocks never throws, extends the
    trace by exactly these events, and writes to the request only what the
    validators it called wrote. *)
Lemma stages_run order :
  NoDup order ->
  forall c w, exists f w',
    stages order c w = Ok f w'
    /\ trace w' = trace w ++ gate_events c (request w) order
    /\ others (request w') = others (request w)
    /\ (forall q, q ∉ order -> part_data q (request w') = part_data q (request w))
    /\ (validators_read_only c -> request w' = request w).
Proof.
  induction 1 as [|p rest Hnotin Hnodup IH]; intros c w.
  - exists Continue, (mkWorld (request w) (fn_errors w) (trace w ++ [EvNext])).
    repeat split; reflexivity.
  - simpl. unfold seq, bind. rewrite stage_run.
    destruct (validator_for c p) as [validate|] eqn:Hval.
    + destruct (valid (fn_call validate (part_data p (request w)))) eqn:Hok.
      * destruct (IH c (after_call p validate w))
          as (f & w' & Hrun & Htr & Hoth & Hframe & Hsame).
        exists f, w'. rewrite Hrun. split; [reflexivity|].
        assert (Hev : gate_events c (request (after_call p validate w)) rest
                      = gate_events c (request w) rest).
        { apply gate_events_ext. intros q Hq. simpl.
          apply part_data_set_other. intros ->. contradiction. }
        split; [|split; [|split]].
        -- rewrite Htr, Hev. simpl. rewrite <- app_assoc. reflexivity.
        -- rewrite Hoth. simpl. apply others_set_part_data.
        -- intros q Hq. rewrite Hframe.
           ++ simpl. apply part_data_set_other. intros ->. apply Hq. now left.
           ++ intros Hin. apply Hq. now right.
        -- intros Hro. rewrite (Hsame Hro). simpl.
           rewrite (Hro p validate Hval). apply set_part_data_same.
      * exists Return, (after_refusal p c validate w).
        split; [reflexivity|].
        split; [|split; [|split]].
        -- simpl. rewrite <- app_assoc. reflexivity.
        -- simpl. apply others_set_part_data.
        -- intros q Hq. simpl. apply part_data_set_other.
           intros ->. apply Hq. now left.
        -- intros Hro. simpl. rewrite (Hro p validate Hval).
           apply set_part_data_same.
    + destruct (IH c w) as (f & w' & Hrun & Htr & Hoth & Hframe & Hsame).
      exists f, w'. rewrite Hrun. repeat split; try assumption.
      intros q Hq. apply Hframe. intros Hin. apply Hq. now right.
Qed.

Lemma stage_order_NoDup : NoDup stage_order.
Proof.
  unfold stage_order.
  repeat (constructor; [rewrite ?elem_of_cons, elem_of_nil; intuition discriminate|]).
  constructor.
Qed.

(** The handler as a whole. *)
Lemma handler_run c w :
  exists w',
    requestHandler c w = Ok tt w'
    /\ trace w' = trace w ++ gate_events c (request w) stage_order
    /\ others (request w') = others (request w)
    /\ (validators_read_only c -> request w' = request w).
Proof.
  destruct (stages_run stage_order stage_order_NoDup c w)
    as (f & w' & Hrun & Htr & Hoth & _ & Hsame).
  exists w'. rewrite requestHandler_stages. unfold run_body, bind.
  rewrite Hrun. repeat split; assumption.
Qed.

(** ** Shape of the events of a run *)

Lemma only_checks_silent evs :
  only_checks evs ->
  sent_payloads evs = [] /\ status_codes evs = [] /\ next_calls evs = 0
  /\ compiled_schemas evs = [].
Proof.
  unfold sent_payloads, status_codes, next_calls, compiled_schemas.
  induction 1 as [|ev evs Hev _ IH]; [repeat split|].
  destruct ev; try contradiction. simpl. exact IH.
Qed.

Lemma rejects_validator c req p :
  rejects c req p = true ->
  exists validate,
    validator_for c p = Some validate
    /\ valid (fn_call validate (part_data p req)) = false.
Proof.
  unfold rejects. destruct (validator_for c p) as [validate|]; [|discriminate].
  intros H. exists validate. split; [reflexivity|].
  now apply negb_true_iff.
Qed.

(** When some part is rejected, the run is validator calls followed by the
    400 response of the first rejected part. *)
Lemma gate_events_refusal c req order p validate :
  find (rejects c req) order = Some p ->
  validator_for c p = Some validate ->
  exists pre,
    gate_events c req order = pre ++ refusal_events p c validate req
    /\ only_checks pre
    /\ validated_sites pre = checked_parts c req order.
Proof.
  induction order as [|q rest IH]; simpl; [discriminate|].
  intros Hfind Hval. unfold rejects in Hfind at 1.
  destruct (validator_for c q) as [vq|] eqn:Hq.
  - destruct (valid (fn_call vq (part_data q req))) eqn:Hok; simpl in Hfind.
    + destruct (IH Hfind Hval) as (pre & Hev & Hchk & Hsites).
      exists (EvValidate q (fn_id vq) (part_data q req) :: pre).
      rewrite Hev. split; [reflexivity|]. split.
      * constructor; [exact I | exact Hchk].
      * change (q :: validated_sites pre = q :: checked_parts c req rest).
        now rewrite Hsites.
    + injection Hfind as ->. rewrite Hq in Hval. injection Hval as ->.
      exists [EvValidate p (fn_id validate) (part_data p req)].
      split; [reflexivity|]. split; [|reflexivity].
      constructor; [exact I | constructor].
  - destruct (IH Hfind Hval) as (pre & Hev & Hchk & Hsites).
    exists pre. auto.
Qed.

(** When no part is rejected, the run is validator calls followed by
    [next()]. *)
Lemma gate_events_pass c req order :
  find (rejects c req) order = None ->
  exists pre,
    gate_events c req order = pre ++ [EvNext]
    /\ only_checks pre
    /\ validated_sites pre = checked_parts c req order.
Proof.
  induction order as [|q rest IH]; simpl.
  - intros _. exists []. repeat split. constructor.
  - intros Hfind. unfold rejects in Hfind at 1.
    destruct (validator_for c q) as [vq|] eqn:Hq.
    + destruct (valid (fn_call vq (part_data q req))) eqn:Hok;
        simpl in Hfind; [|discriminate].
      destruct (IH Hfind) as (pre & Hev & Hchk & Hsites).
      exists (EvValidate q (fn_id vq) (part_data q req) :: pre).
      rewrite Hev. split; [reflexivity|]. split.
      * constructor; [exact I | exact Hchk].
      * change (q :: validated_sites pre = q :: checked_parts c req rest).
        now rewrite Hsites.
    + destruct (IH Hfind) as (pre & Hev & Hchk & Hsites).
      exists pre. auto.
Qed.

Lemma validated_sites_gate_events c req order :
  validated_sites (gate_events c req order) = checked_parts c req order.
Proof.
  induction order as [|q rest IH]; simpl; [reflexivity|].
  destruct (validator_for c q) as [vq|]; [|exact IH].
  destruct (valid _).
  - change (q :: validated_sites (gate_events c req rest)
            = q :: checked_parts c req rest).
    now rewrite IH.
  - reflexivity.
Qed.

Lemma all_accept_first_rejected c req :
  all_accept c req -> first_rejected c req = None.
Proof.
  intros Hall. unfold first_rejected.
  destruct (find (rejects c req) stage_order) as [p|] eqn:Hfind; [|reflexivity].
  apply find_some in Hfind as [_ Hrej].
  apply rejects_validator in Hrej as (validate & Hval & Hno).
  rewrite (Hall p validate Hval) in Hno. discriminate.
Qed.

Lemma gate_events_no_compile c req order :
  compiled_schemas (gate_events c req order) = [].
Proof.
  induction order as [|q rest IH]; simpl; [reflexivity|].
  destruct (validator_for c q) as [vq|]; [|exact IH].
  destruct (valid _); [exact IH | reflexivity].
Qed.

(** ** The order of the checks *)

(** The handler alone, for any closure: when the body validator and the
    query validator both exist and both reject, the run consists of the call
    of the body validator, [res.status(400)] and [res.json] with the message
    "Request body validation failed" and the body validator's findings.  In
    every run the parts whose validator is called are those a left-to-right
    pass over body, query, headers visits before it stops at the first
    rejected part. *)
Lemma body_failure_reported_alone c w :
  exists w' d,
    requestHandler c w = Ok tt w'
    /\ trace w' = trace w ++ d
    /\ validated_sites d = checked_parts c (request w) [Body; Query; Headers]
    /\ forall vb vq,
         validateBody c = Some vb ->
         valid (fn_call vb (body (request w))) = false ->
         validateQuery c = Some vq ->
         valid (fn_call vq (query (request w))) = false ->
         d = [ EvValidate Body (fn_id vb) (body (request w));
               EvStatus 400;
               EvJson (JObj [ ("error", JStr "Request body validation failed");
                              ("schema", bodySchema c);
                              ("details",
                               details (reported (fn_call vb (body (request w))))) ]) ].
Proof.
  destruct (handler_run c w) as (w' & Hrun & Htr & _).
  exists w', (gate_events c (request w) stage_order).
  split; [exact Hrun|]. split; [exact Htr|].
  split; [apply validated_sites_gate_events|].
  intros vb vq Hvb Hno _ _. simpl. rewrite Hvb, Hno. reflexivity.
Qed.

Lemma body_failure_reported_alone_witness :
  exists w',
    requestHandler Sample.gate (Sample.empty_world Sample.bad_request) = Ok tt w'
    /\ trace w' =
       [ EvValidate Body 12 (JObj [("name", JStr "Al")]);
         EvStatus 400;
         EvJson (JObj [ ("error", JStr "Request body validation failed");
                        ("schema", Sample.user_schema);
                        ("details",
                         JArr [JObj [ ("field", JStr "email");
                                      ("message",
                                       JStr "must have required property 'email'");
                                      ("keyword", JStr "required");
                                      ("params",
                                       JObj [("missingProperty", JStr "email")]) ]]) ]) ].
Proof.
  destruct (body_failure_reported_alone
              Sample.gate (Sample.empty_world Sample.bad_request))
    as (w' & d & Hrun & Htr & _ & Hbody).
  exists w'. split; [exact Hrun|].
  rewrite Htr.
  rewrite (Hbody _ _ eq_refl eq_refl eq_refl eq_refl).
  reflexivity.
Defined.

(** ** The field locator of a finding *)

Lemma truthy_JStr s : truthy (JStr s) = true <-> s <> EmptyString.
Proof.
  simpl. rewrite negb_true_iff. split.
  - intros H ->. discriminate.
  - intros H. destruct s; [contradiction | reflexivity].
Qed.

Lemma js_or_l a b : truthy a = true -> js_or a b = a.
Proof. unfold js_or. now intros ->. Qed.

Lemma js_or_r a b : truthy a = false -> js_or a b = b.
Proof. unfold js_or. now intros ->. Qed.

(** The handler does not look at the keyword of an error.  For the error of
    a [dependencies] rule the field is the [missingProperty] parameter, where
    a test on the [required] rule gives "root"; for the [required] error of a
    property whose name is the empty string the field is "root", not that
    name. *)
Lemma field_not_decided_by_keyword :
  finding_field Sample.dependencies_error = JStr "b"
  /\ stated_field Sample.dependencies_error = JStr "root"
  /\ finding_field (Sample.required_error EmptyString) = JStr "root"
  /\ stated_field (Sample.required_error EmptyString) = JStr EmptyString
  /\ ~ (forall err, finding_field err = stated_field err).
Proof.
  repeat split; try reflexivity.
  intros H. specialize (H Sample.dependencies_error). discriminate H.
Qed.

(** C2 (amended). The [field] of a finding is the error's instance path when
    that path is non-empty; otherwise it is the [missingProperty] parameter
    of the error when that parameter is a non-empty string, whatever the
    keyword of the rule; otherwise, when the error has no [missingProperty]
    parameter, it is the string "root".  In particular, when the first error
    of a part is a [required] error at the root for a property with a
    non-empty name, the first detail's [field] is that name. *)
Theorem finding_field_cases err name :
  (instancePath err <> EmptyString ->
   finding_field err = JStr (instancePath err))
  /\ (instancePath err = EmptyString ->
      opt_member (params err) "missingProperty" = JStr name ->
      name <> EmptyString ->
      finding_field err = JStr name)
  /\ (instancePath err = EmptyString ->
      opt_member (params err) "missingProperty" = JUndefined ->
      finding_field err = JStr "root")
  /\ (instancePath err = EmptyString ->
      keyword err = "required" ->
      params err = JObj [("missingProperty", JStr name)] ->
      name <> EmptyString ->
      forall rest, exists others_,
        details (Some (err :: rest))
        = JArr (JObj (("field", JStr name) :: others_) :: map finding rest)).
Proof.
  unfold finding_field.
  split; [|split; [|split]].
  - intros Hpath. apply truthy_JStr in Hpath.
    rewrite (js_or_l (JStr (instancePath err))) by exact Hpath.
    now apply js_or_l.
  - intros -> -> Hname. apply truthy_JStr in Hname.
    rewrite (js_or_r (JStr EmptyString)) by reflexivity. now apply js_or_l.
  - intros -> ->. reflexivity.
  - intros Hpath _ Hparams Hname rest.
    eexists. simpl. unfold finding at 1, finding_field.
    rewrite Hpath, Hparams. apply truthy_JStr in Hname.
    rewrite (js_or_r (JStr EmptyString)) by reflexivity. simpl opt_member.
    rewrite js_or_l by exact Hname. reflexivity.
Qed.

Lemma finding_field_cases_witness :
  finding_field Sample.format_error = JStr "/email"
  /\ finding_field (Sample.required_error "email") = JStr "email"
  /\ finding_field Sample.dependencies_error = JStr "b"
  /\ finding_field Sample.false_schema_error = JStr "root".
Proof.
  split; [|split; [|split]].
  - apply (finding_field_cases Sample.format_error "x"). discriminate.
  - apply (finding_field_cases (Sample.required_error "email") "email");
      [reflexivity | reflexivity | discriminate].
  - apply (finding_field_cases Sample.dependencies_error "b");
      [reflexivity | reflexivity | discriminate].
  - apply (finding_field_cases Sample.false_schema_error "x");
      reflexivity.
Defined.

(** ** The 400 response *)

(** C3. When a configured validator rejects its part (and no earlier part is
    rejected), the handler returns normally, without throwing; after the
    validator calls it sets status 400 and sends one JSON payload made of
    the message of that part, the schema captured for that part, and
    [details]: the engine's errors mapped one by one, in the engine's order,
    to findings [{field, message, keyword, params}]. *)
Theorem failure_answers_400 c w p validate errs :
  first_rejected c (request w) = Some p ->
  validator_for c p = Some validate ->
  reported (fn_call validate (part_data p (request w))) = Some errs ->
  exists w' pre,
    requestHandler c w = Ok tt w'
    /\ only_checks pre
    /\ trace w' =
       trace w ++ pre ++
       [ EvStatus 400;
         EvJson (JObj [ ("error",
                         JStr match p with
                              | Body => "Request body validation failed"
                              | Query => "Query parameters validation failed"
                              | Headers => "Headers validation failed"
                              end);
                        ("schema", schema_for c p);
                        ("details",
                         JArr (map (fun err =>
                                      JObj [ ("field", finding_field err);
                                             ("message", js_opt_string (message err));
                                             ("keyword", JStr (keyword err));
                                             ("params", params err) ])
                                   errs)) ]) ].
Proof.
  intros Hfirst Hval Herrs.
  destruct (handler_run c w) as (w' & Hrun & Htr & _).
  destruct (gate_events_refusal c (request w) stage_order p validate Hfirst Hval)
    as (pre & Hev & Hchk & _).
  exists w', pre. split; [exact Hrun|]. split; [exact Hchk|].
  rewrite Htr, Hev. unfold refusal_events, failure_payload. rewrite Herrs.
  destruct p; reflexivity.
Qed.

Lemma failure_answers_400_witness :
  exists w',
    requestHandler
      (mkCaptured Sample.user_schema Sample.page_schema JUndefined
                  None (Some (Sample.required_validator ["page"])) None)
      (Sample.empty_world Sample.bad_request) = Ok tt w'
    /\ trace w' =
       [ EvValidate Query 6 (JObj []);
         EvStatus 400;
         EvJson (JObj [ ("error", JStr "Query parameters validation failed");
                        ("schema", Sample.page_schema);
                        ("details",
                         JArr [JObj [ ("field", JStr "page");
                                      ("message",
                                       JStr "must have required property 'page'");
                                      ("keyword", JStr "required");
                                      ("params",
                                       JObj [("missingProperty", JStr "page")]) ]]) ]) ].
Proof.
  destruct (failure_answers_400
              (mkCaptured Sample.user_schema Sample.page_schema JUndefined
                          None (Some (Sample.required_validator ["page"])) None)
              (Sample.empty_world Sample.bad_request)
              Query (Sample.required_validator ["page"])
              [Sample.required_error "page"]
              eq_refl eq_refl eq_refl)
    as (w' & pre & Hrun & Hchk & Htr).
  exists w'. split; [exact Hrun|].
  vm_compute in Hrun. injection Hrun as <-. reflexivity.
Defined.

(** ** Accepted requests *)

Lemma required_validator_read_only names :
  leaves_data_intact (Sample.required_validator names).
Proof.
  intros data. simpl. unfold Sample.check_required.
  destruct data; try reflexivity.
  destruct (find (Sample.missing (JObj props)) names); reflexivity.
Qed.

Lemma sample_gate_read_only : validators_read_only Sample.gate.
Proof.
  intros p validate.
  destruct p; simpl; intros [= <-]; apply required_validator_read_only.
Qed.

(** C4. When every configured validator accepts its part, the run is the
    validator calls followed by one call of [next()]: no status is set and
    no payload is sent; and, the validators of [new Ajv()] being read-only,
    the request is the one that came in.  In particular, whatever the other
    parts do, a request whose body is accepted by the body validator gets no
    response carrying the body-stage message. *)
Theorem accepted_request_reaches_next c w :
  exists w' d,
    requestHandler c w = Ok tt w'
    /\ trace w' = trace w ++ d
    /\ (all_accept c (request w) ->
        (exists pre, d = pre ++ [EvNext] /\ only_checks pre)
        /\ sent_payloads d = [] /\ status_codes d = [] /\ next_calls d = 1
        /\ (validators_read_only c -> request w' = request w))
    /\ (forall vb,
          validateBody c = Some vb ->
          valid (fn_call vb (body (request w))) = true ->
          forall payload,
            payload ∈ sent_payloads d ->
            opt_member payload "error" <> JStr "Request body validation failed").
Proof.
  destruct (handler_run c w) as (w' & Hrun & Htr & _ & Hsame).
  exists w', (gate_events c (request w) stage_order).
  split; [exact Hrun|]. split; [exact Htr|]. split.
  - intros Hall.
    destruct (gate_events_pass c (request w) stage_order
                (all_accept_first_rejected c (request w) Hall))
      as (pre & Hev & Hchk & _).
    destruct (only_checks_silent pre Hchk) as (Hp & Hs & Hn & _).
    split; [exists pre; split; assumption|].
    rewrite Hev. unfold sent_payloads, status_codes, next_calls in *.
    rewrite !omap_app, Hp, Hs, length_app, Hn.
    repeat split; try reflexivity. exact Hsame.
  - intros vb Hvb Hok payload. simpl. rewrite Hvb, Hok.
    destruct (validateQuery c) as [vq|];
      [destruct (valid (fn_call vq (query (request w))))|];
      (destruct (validateHeaders c) as [vh|];
       [destruct (valid (fn_call vh (headers (request w))))|]);
      simpl; rewrite ?elem_of_cons, elem_of_nil;
      intros Hin; decompose [or] Hin; try contradiction; subst;
      discriminate.
Qed.

Lemma accepted_request_reaches_next_witness :
  exists w',
    requestHandler Sample.gate (Sample.empty_world Sample.good_request) = Ok tt w'
    /\ trace w' =
       [ EvValidate Body 12 (body Sample.good_request);
         EvValidate Query 6 (query Sample.good_request);
         EvValidate Headers 11 (headers Sample.good_request);
         EvNext ]
    /\ sent_payloads (trace w') = []
    /\ request w' = Sample.good_request.
Proof.
  destruct (accepted_request_reaches_next
              Sample.gate (Sample.empty_world Sample.good_request))
    as (w' & d & Hrun & Htr & Hpass & _).
  exists w'. split; [exact Hrun|].
  assert (Hall : all_accept Sample.gate
                   (request (Sample.empty_world Sample.good_request))).
  { intros p validate. destruct p; simpl; intros [= <-]; reflexivity. }
  pose proof sample_gate_read_only as Hro.
  destruct (Hpass Hall) as (_ & Hsent & _ & _ & Hsame).
  split; [|split].
  - vm_compute in Hrun. injection Hrun as <-. reflexivity.
  - rewrite Htr. exact Hsent.
  - exact (Hsame Hro).
Defined.

(** ** One outcome per request *)

(** C8. Whatever the three optional validators are, a run of the handler
    ends in exactly one of two ways: it sets status 400 and sends one
    payload, and does not call [next()]; or it calls [next()] once, and sets
    no status and sends nothing. *)
Theorem exactly_one_outcome c w :
  exists w' d,
    requestHandler c w = Ok tt w'
    /\ trace w' = trace w ++ d
    /\ ((exists payload,
           sent_payloads d = [payload]
           /\ status_codes d = [400%Z]
           /\ next_calls d = 0)
        \/ (sent_payloads d = []
            /\ status_codes d = []
            /\ next_calls d = 1)).
Proof.
  destruct (handler_run c w) as (w' & Hrun & Htr & _).
  exists w', (gate_events c (request w) stage_order).
  split; [exact Hrun|]. split; [exact Htr|].
  destruct (find (rejects c (request w)) stage_order) as [p|] eqn:Hfind.
  - left.
    destruct (find_some _ _ Hfind) as [_ Hrej].
    apply rejects_validator in Hrej as (validate & Hval & _).
    destruct (gate_events_refusal c (request w) stage_order p validate Hfind Hval)
      as (pre & Hev & Hchk & _).
    destruct (only_checks_silent pre Hchk) as (Hp & Hs & Hn & _).
    eexists. rewrite Hev. unfold sent_payloads, status_codes, next_calls in *.
    rewrite !omap_app, Hp, Hs, length_app, Hn. repeat split.
  - right.
    destruct (gate_events_pass c (request w) stage_order Hfind)
      as (pre & Hev & Hchk & _).
    destruct (only_checks_silent pre Hchk) as (Hp & Hs & Hn & _).
    rewrite Hev. unfold sent_payloads, status_codes, next_calls in *.
    rewrite !omap_app, Hp, Hs, length_app, Hn. repeat split.
Qed.

(** ** What the outcome depends on *)

(** C9. Two requests with the same body, query and headers get the same
    run: the same validator calls on the same data, and then either the same
    status and payload or [next()], whatever their other fields are. *)
Theorem outcome_depends_on_three_parts c w1 w2 :
  body (request w1) = body (request w2) ->
  query (request w1) = query (request w2) ->
  headers (request w1) = headers (request w2) ->
  exists d w1' w2',
    requestHandler c w1 = Ok tt w1'
    /\ requestHandler c w2 = Ok tt w2'
    /\ trace w1' = trace w1 ++ d
    /\ trace w2' = trace w2 ++ d.
Proof.
  intros Hb Hq Hh.
  destruct (handler_run c w1) as (w1' & Hrun1 & Htr1 & _).
  destruct (handler_run c w2) as (w2' & Hrun2 & Htr2 & _).
  exists (gate_events c (request w1) stage_order), w1', w2'.
  repeat split; try assumption.
  rewrite Htr2. f_equal. apply gate_events_ext.
  intros [] _; simpl; congruence.
Qed.

Lemma outcome_depends_on_three_parts_witness :
  exists d w1' w2',
    requestHandler Sample.gate (Sample.empty_world Sample.good_request) = Ok tt w1'
    /\ requestHandler Sample.gate
         (mkWorld Sample.good_request'
                  {[ 6%nat := [Sample.required_error "page"] ]}
                  [EvStatus 200]) = Ok tt w2'
    /\ trace w1' = d
    /\ trace w2' = EvStatus 200 :: d.
Proof.
  exact (outcome_depends_on_three_parts Sample.gate
           (Sample.empty_world Sample.good_request)
           (mkWorld Sample.good_request'
                    {[ 6%nat := [Sample.required_error "page"] ]}
                    [EvStatus 200])
           eq_refl eq_refl eq_refl).
Defined.

(** ** The request object *)

(** C10. The handler has no branch that writes to the request: with the
    read-only validators of [new Ajv()], the request after the run is the
    request before it, also when the run ended in a 400 response; and
    whatever the validators do with the part they are given, the fields
    other than body, query and headers stay as they were. *)
Theorem request_left_as_received c w w' :
  requestHandler c w = Ok tt w' ->
  others (request w') = others (request w)
  /\ (validators_read_only c -> request w' = request w).
Proof.
  intros Hrun.
  destruct (handler_run c w) as (w0 & Hrun0 & _ & Hoth & Hsame).
  rewrite Hrun0 in Hrun. injection Hrun as <-. split; assumption.
Qed.

Lemma request_left_as_received_witness :
  exists w',
    requestHandler Sample.gate (Sample.empty_world Sample.bad_request) = Ok tt w'
    /\ status_codes (trace w') = [400%Z]
    /\ request w' = Sample.bad_request.
Proof.
  eexists. split; [vm_compute; reflexivity|].
  split; [reflexivity|].
  apply (request_left_as_received
           Sample.gate (Sample.empty_world Sample.bad_request) _ eq_refl).
  exact sample_gate_read_only.
Defined.

(** ** Running the gate twice *)

(** C6. With the read-only validators of [new Ajv()], running the handler a
    second time on the same request object repeats the first run event for
    event: the same validator calls with the same verdicts and, when a part
    is rejected, the same status and the same payload, [details] included. *)
Theorem validation_idempotent c w :
  validators_read_only c ->
  exists d w1 w2,
    requestHandler c w = Ok tt w1
    /\ requestHandler c w1 = Ok tt w2
    /\ trace w1 = trace w ++ d
    /\ trace w2 = trace w1 ++ d
    /\ request w2 = request w.
Proof.
  intros Hro.
  destruct (handler_run c w) as (w1 & Hrun1 & Htr1 & _ & Hsame1).
  destruct (handler_run c w1) as (w2 & Hrun2 & Htr2 & _ & Hsame2).
  exists (gate_events c (request w) stage_order), w1, w2.
  repeat split; try assumption.
  - rewrite Htr2, (Hsame1 Hro). reflexivity.
  - rewrite (Hsame2 Hro). exact (Hsame1 Hro).
Qed.

Lemma validation_idempotent_witness :
  exists w1 w2,
    requestHandler Sample.gate (Sample.empty_world Sample.bad_request) = Ok tt w1
    /\ requestHandler Sample.gate w1 = Ok tt w2
    /\ sent_payloads (trace w2)
       = sent_payloads (trace w1) ++ sent_payloads (trace w1)
    /\ length (sent_payloads (trace w1)) = 1.
Proof.
  destruct (validation_idempotent
              Sample.gate (Sample.empty_world Sample.bad_request)
              sample_gate_read_only)
    as (d & w1 & w2 & Hrun1 & Hrun2 & Htr1 & Htr2 & _).
  exists w1, w2. split; [exact Hrun1|]. split; [exact Hrun2|].
  unfold sent_payloads. rewrite Htr2, omap_app, Htr1. simpl.
  vm_compute in Hrun1. injection Hrun1 as <-. simpl in Htr1.
  rewrite <- Htr1. split; reflexivity.
Defined.

(** ** The factory *)

Section Factory.

Variable ajv_compile : JsValue -> Compiled.

Lemma compile_if_given_run schema w :
  compile_if_given ajv_compile schema w =
  if truthy schema then
    match ajv_compile schema with
    | inr validate =>
        Ok (Some validate)
           (mkWorld (request w) (fn_errors w) (trace w ++ [EvCompile schema]))
    | inl err =>
        Thrown err
           (mkWorld (request w) (fn_errors w) (trace w ++ [EvCompile schema]))
    end
  else Ok None w.
Proof.
  unfold compile_if_given, compile, bind, emit, ret, throw.
  destruct (truthy schema); [|reflexivity].
  destruct (ajv_compile schema); reflexivity.
Qed.

Lemma compile_if_given_cases schema w :
  (truthy schema = false /\ compile_if_given ajv_compile schema w = Ok None w)
  \/ (truthy schema = true
      /\ exists validate,
           ajv_compile schema = inr validate
           /\ compile_if_given ajv_compile schema w
              = Ok (Some validate)
                   (mkWorld (request w) (fn_errors w)
                            (trace w ++ [EvCompile schema])))
  \/ (truthy schema = true
      /\ exists err,
           ajv_compile schema = inl err
           /\ compile_if_given ajv_compile schema w
              = Thrown err
                   (mkWorld (request w) (fn_errors w)
                            (trace w ++ [EvCompile schema]))).
Proof.
  rewrite compile_if_given_run.
  destruct (truthy schema); [|now left].
  right. destruct (ajv_compile schema) as [err|validate]; [right | left];
    (split; [reflexivity|]; eexists; split; reflexivity).
Qed.

(** The factory: two set-up calls, then the three guarded compilations. *)
Lemma createMiddleware_run s w :
  createMiddleware ajv_compile s w =
  match compile_if_given ajv_compile (opt_bodySchema s)
          (mkWorld (request w) (fn_errors w)
                   ((trace w ++ [EvNewAjv]) ++ [EvAddFormats])) with
  | Thrown err w1 => Thrown err w1
  | Ok validateBody w1 =>
      match compile_if_given ajv_compile (opt_querySchema s) w1 with
      | Thrown err w2 => Thrown err w2
      | Ok validateQuery w2 =>
          match compile_if_given ajv_compile (opt_headersSchema s) w2 with
          | Thrown err w3 => Thrown err w3
          | Ok validateHeaders w3 =>
              Ok (requestHandler
                    (mkCaptured (opt_bodySchema s) (opt_querySchema s)
                                (opt_headersSchema s)
                                validateBody validateQuery validateHeaders))
                 w3
          end
      end
  end.
Proof. reflexivity. Qed.

(** What the returned handler closes over: the schemas as they were passed,
    and for each of them the validator the engine compiled from it, or
    [null] when the schema is falsy. *)
Lemma createMiddleware_captures s w handler w' :
  createMiddleware ajv_compile s w = Ok handler w' ->
  exists vb vq vh,
    handler = requestHandler
                (mkCaptured (opt_bodySchema s) (opt_querySchema s)
                            (opt_headersSchema s) vb vq vh)
    /\ (forall v, vb = Some v <->
                  truthy (opt_bodySchema s) = true
                  /\ ajv_compile (opt_bodySchema s) = inr v)
    /\ (forall v, vq = Some v <->
                  truthy (opt_querySchema s) = true
                  /\ ajv_compile (opt_querySchema s) = inr v)
    /\ (forall v, vh = Some v <->
                  truthy (opt_headersSchema s) = true
                  /\ ajv_compile (opt_headersSchema s) = inr v).
Proof.
  rewrite createMiddleware_run.
  repeat match goal with
  | |- context [compile_if_given ajv_compile ?x ?w0] =>
      let Ht := fresh "Ht" in
      let Hc := fresh "Hc" in
      destruct (compile_if_given_cases x w0)
        as [[Ht ->]|[[Ht (? & Hc & ->)]|[Ht (? & Hc & ->)]]];
      cbv beta iota
  end.
  all: try discriminate.
  all: intros [= <- <-]; eexists _, _, _; split; [reflexivity|].
  all: repeat split; try congruence.
  all: try (intros [_ ?]; congruence).
  all: try (intros [? _]; congruence).
Qed.

(** The handler [createMiddleware] returns makes no call to the compiler. *)
Lemma handler_never_compiles c w :
  exists w' d,
    requestHandler c w = Ok tt w'
    /\ trace w' = trace w ++ d
    /\ compiled_schemas d = [].
Proof.
  destruct (handler_run c w) as (w' & Hrun & Htr & _).
  exists w', (gate_events c (request w) stage_order).
  repeat split; try assumption. apply gate_events_no_compile.
Qed.

End Factory.

(** C5. When none of the three schemas is supplied, the factory compiles
    nothing and the handler it returns does one thing with every request: it
    calls [next()] once.  It sets no status, sends nothing, and the request
    and the validators' state are the ones it found. *)
Theorem no_schemas_pass_through ajv_compile w :
  exists handler w0,
    createMiddleware ajv_compile (mkSchemas JUndefined JUndefined JUndefined) w
    = Ok handler w0
    /\ trace w0 = trace w ++ [EvNewAjv; EvAddFormats]
    /\ forall w1,
         handler w1
         = Ok tt (mkWorld (request w1) (fn_errors w1) (trace w1 ++ [EvNext])).
Proof.
  eexists _, _. split; [reflexivity|]. split.
  - simpl. rewrite <- app_assoc. reflexivity.
  - intros w1. reflexivity.
Qed.

(** The boolean schema [false] is a schema (it rejects every value, and the
    engine compiles it), yet the factory treats it as absent: it is never
    compiled, and the handler lets through a request that violates it. *)
Lemma false_schema_never_compiled :
  exists handler w' w'',
    createMiddleware Sample.ajv_compile (mkSchemas (JBool false) JUndefined JUndefined)
                     (Sample.empty_world Sample.good_request)
    = Ok handler w'
    /\ Sample.ajv_compile (JBool false) = inr Sample.reject_all
    /\ List.filter supplied
         (schema_options (mkSchemas (JBool false) JUndefined JUndefined))
       = [JBool false]
    /\ compiled_schemas (trace w') = []
    /\ compiled_schemas (trace w')
       <> List.filter supplied
            (schema_options (mkSchemas (JBool false) JUndefined JUndefined))
    /\ handler (Sample.empty_world Sample.good_request) = Ok tt w''
    /\ trace w'' = [EvNext].
Proof.
  eexists _, _, _. repeat split; try reflexivity. discriminate.
Qed.

(** C7 (amended). Every supplied schema that is truthy (a schema object or
    the boolean schema [true]) is compiled exactly once, during the factory
    call, in the order body, query, headers: when the engine accepts them
    all, the factory's calls are [new Ajv()], [addFormats] and one [compile]
    per such schema, and the handler it returns never calls the compiler;
    when the engine refuses one of them, the factory call throws the
    engine's error for the first refused schema and returns no handler. *)
Theorem truthy_schemas_compiled_once ajv_compile s w :
  (Forall (fun schema => exists validate, ajv_compile schema = inr validate)
          (List.filter truthy (schema_options s)) ->
   exists handler w',
     createMiddleware ajv_compile s w = Ok handler w'
     /\ trace w' =
        trace w ++ [EvNewAjv; EvAddFormats]
                ++ map EvCompile (List.filter truthy (schema_options s))
     /\ forall w1, exists w2 d,
          handler w1 = Ok tt w2
          /\ trace w2 = trace w1 ++ d
          /\ compiled_schemas d = [])
  /\ (Exists (fun schema => exists err, ajv_compile schema = inl err)
             (List.filter truthy (schema_options s)) ->
      exists err w' schema,
        createMiddleware ajv_compile s w = Thrown err w'
        /\ schema ∈ List.filter truthy (schema_options s)
        /\ ajv_compile schema = inl err
        /\ last (trace w') = Some (EvCompile schema)).
Proof.
  destruct s as [b q h].
  rewrite createMiddleware_run. unfold schema_options.
  cbn [opt_bodySchema opt_querySchema opt_headersSchema List.filter].
  repeat match goal with
  | |- context [compile_if_given ajv_compile ?x ?w0] =>
      let Ht := fresh "Ht" in
      let Hc := fresh "Hc" in
      destruct (compile_if_given_cases ajv_compile x w0)
        as [[Ht ->]|[[Ht (? & Hc & ->)]|[Ht (? & Hc & ->)]]];
      rewrite ?Ht; cbv beta iota
  end.
  all: split; [intros Hall | intros Hbad].
  all: try solve
    [ eexists _, _; split; [reflexivity|]; split;
      [simpl; rewrite <- ?app_assoc; reflexivity
      |intros w1; apply handler_never_compiles]
    | exfalso; repeat (apply Forall_cons in Hall as [[? ?] Hall]); congruence
    | exfalso;
      repeat (apply Exists_cons in Hbad as [[? ?]|Hbad]; [congruence|]);
      now apply Exists_nil in Hbad ].
  all: match goal with
       | Hc : _ ?x = inl ?e |- _ =>
           exists e; eexists _, x; split; [reflexivity|];
           split; [repeat first [now left | right]|];
           split; [exact Hc | simpl; apply last_snoc]
       end.
Qed.

Lemma truthy_schemas_compiled_once_witness :
  (exists handler w',
     createMiddleware Sample.ajv_compile
       (mkSchemas Sample.user_schema Sample.page_schema JUndefined)
       (Sample.empty_world Sample.good_request) = Ok handler w'
     /\ trace w' =
        [ EvNewAjv; EvAddFormats;
          EvCompile Sample.user_schema; EvCompile Sample.page_schema ])
  /\ (exists err w',
        createMiddleware Sample.ajv_compile
          (mkSchemas Sample.user_schema
                     (JObj [("required", JStr "page")])
                     Sample.key_schema)
          (Sample.empty_world Sample.good_request) = Thrown err w'
        /\ err = "schema is invalid: data/required must be array"
        /\ trace w' =
           [ EvNewAjv; EvAddFormats;
             EvCompile Sample.user_schema;
             EvCompile (JObj [("required", JStr "page")]) ]).
Proof.
  split.
  - destruct (proj1 (truthy_schemas_compiled_once Sample.ajv_compile
                       (mkSchemas Sample.user_schema Sample.page_schema JUndefined)
                       (Sample.empty_world Sample.good_request)))
      as (handler & w' & Hrun & Htr & _).
    { repeat constructor; eexists; reflexivity. }
    exists handler, w'. split; [exact Hrun | exact Htr].
  - destruct (proj2 (truthy_schemas_compiled_once Sample.ajv_compile
                       (mkSchemas Sample.user_schema
                                  (JObj [("required", JStr "page")])
                                  Sample.key_schema)
                       (Sample.empty_world Sample.good_request)))
      as (err & w' & schema & Hrun & _).
    { right. left. eexists. reflexivity. }
    exists err, w'. split; [exact Hrun|].
    vm_compute in Hrun. injection Hrun as <- <-. split; reflexivity.
Defined.

(** ** The model can tell a writing validator from a read-only one *)

(** A validator built with [useDefaults] writes into the body it is given,
    and the request after the run shows it; such a validator is not
    read-only. *)
Example writing_validator_changes_request :
  exists w',
    requestHandler
      (mkCaptured (JBool true) JUndefined JUndefined
                  (Some Sample.defaulting_validator) None None)
      (Sample.empty_world Sample.bad_request) = Ok tt w'
    /\ body (request w') = JObj [("name", JStr "Al"); ("role", JStr "user")]
    /\ ~ leaves_data_intact Sample.defaulting_validator.
Proof.
  eexists. split; [reflexivity|]. split; [reflexivity|].
  intros H. specialize (H (JObj [])). discriminate H.
Qed.

(** * Further properties of the handler and the factory *)

(** ** The field locator is never empty *)

(** X1. Whatever the engine's error looks like (also with [params] null or
    undefined, or a [missingProperty] that is empty or not a string), the
    [field] of its finding is a truthy value, so never the empty string,
    [undefined] or [null]; and it is one of three things: the instance path,
    the [missingProperty] parameter, or "root". *)
Theorem finding_field_never_falsy err :
  truthy (finding_field err) = true
  /\ (finding_field err = JStr (instancePath err)
      \/ finding_field err = opt_member (params err) "missingProperty"
      \/ finding_field err = JStr "root").
Proof.
  unfold finding_field.
  destruct (truthy (JStr (instancePath err))) eqn:Hpath.
  - rewrite (js_or_l (JStr (instancePath err))) by exact Hpath.
    rewrite js_or_l by exact Hpath. auto.
  - rewrite (js_or_r (JStr (instancePath err))) by exact Hpath.
    destruct (truthy (opt_member (params err) "missingProperty")) eqn:Hmiss.
    + rewrite js_or_l by exact Hmiss. auto.
    + rewrite js_or_r by exact Hmiss. auto.
Qed.

(** ** A rejection without an error list *)

(** X2. [validate.errors] may be [null]: when the first rejecting validator
    leaves no error list, the handler still answers 400 with the message and
    the schema of that part, and the payload's [details] is [undefined];
    [next()] is not called. *)
Theorem refusal_without_error_list c w p validate :
  first_rejected c (request w) = Some p ->
  validator_for c p = Some validate ->
  reported (fn_call validate (part_data p (request w))) = None ->
  exists w' pre,
    requestHandler c w = Ok tt w'
    /\ only_checks pre
    /\ trace w' =
       trace w ++ pre ++
       [ EvStatus 400;
         EvJson (JObj [ ("error", JStr (stage_message p));
                        ("schema", schema_for c p);
                        ("details", JUndefined) ]) ].
Proof.
  intros Hfirst Hval Herrs.
  destruct (handler_run c w) as (w' & Hrun & Htr & _).
  destruct (gate_events_refusal c (request w) stage_order p validate Hfirst Hval)
    as (pre & Hev & Hchk & _).
  exists w', pre. split; [exact Hrun|]. split; [exact Hchk|].
  rewrite Htr, Hev. unfold refusal_events, failure_payload. rewrite Herrs.
  reflexivity.
Qed.

Lemma refusal_without_error_list_witness :
  exists w',
    requestHandler
      (mkCaptured JUndefined JUndefined Sample.key_schema
                  None None (Some silent_rejector))
      (Sample.empty_world Sample.good_request) = Ok tt w'
    /\ trace w' =
       [ EvValidate Headers 7 (headers Sample.good_request);
         EvStatus 400;
         EvJson (JObj [ ("error", JStr "Headers validation failed");
                        ("schema", Sample.key_schema);
                        ("details", JUndefined) ]) ].
Proof.
  destruct (refusal_without_error_list
              (mkCaptured JUndefined JUndefined Sample.key_schema
                          None None (Some silent_rejector))
              (Sample.empty_world Sample.good_request)
              Headers silent_rejector eq_refl eq_refl eq_refl)
    as (w' & pre & Hrun & _ & _).
  exists w'. split; [exact Hrun|].
  vm_compute in Hrun. injection Hrun as <-. reflexivity.
Defined.

(** ** What a validator is given *)

Lemma checked_parts_sublist c req order :
  checked_parts c req order `sublist_of` order.
Proof.
  induction order as [|q rest IH]; simpl; [constructor|].
  destruct (validator_for c q) as [vq|]; [|now apply sublist_cons].
  apply sublist_skip. destruct (valid _); [exact IH | apply sublist_nil_l].
Qed.

Lemma gate_events_calls c req order p id data :
  EvValidate p id data ∈ gate_events c req order ->
  exists validate,
    validator_for c p = Some validate
    /\ id = fn_id validate
    /\ data = part_data p req.
Proof.
  induction order as [|q rest IH]; simpl.
  - rewrite elem_of_cons, elem_of_nil. intros [?|[]]; discriminate.
  - destruct (validator_for c q) as [vq|] eqn:Hq; [|exact IH].
    rewrite elem_of_cons. intros [Heq|Hin].
    + injection Heq as -> -> ->. exists vq. auto.
    + destruct (valid (fn_call vq (part_data q req))); [now apply IH|].
      unfold refusal_events in Hin.
      rewrite !elem_of_cons, elem_of_nil in Hin.
      destruct Hin as [?|[?|[]]]; discriminate.
Qed.

(** X3. During one run every validator is called at most once, in the order
    body, query, headers, and only with its own part of the request as the
    request came in: the body validator is never given the query or the
    headers, and no validator is called that was not configured for the
    part. *)
Theorem validators_get_their_own_part c w :
  exists w' d,
    requestHandler c w = Ok tt w'
    /\ trace w' = trace w ++ d
    /\ validated_sites d `sublist_of` [Body; Query; Headers]
    /\ forall p id data,
         EvValidate p id data ∈ d ->
         exists validate,
           validator_for c p = Some validate
           /\ id = fn_id validate
           /\ data = part_data p (request w).
Proof.
  destruct (handler_run c w) as (w' & Hrun & Htr & _).
  exists w', (gate_events c (request w) stage_order).
  split; [exact Hrun|]. split; [exact Htr|]. split.
  - rewrite validated_sites_gate_events. apply checked_parts_sublist.
  - intros p id data. apply gate_events_calls.
Qed.

Lemma validators_get_their_own_part_witness :
  exists w' validate,
    requestHandler Sample.gate (Sample.empty_world Sample.good_request) = Ok tt w'
    /\ EvValidate Query 6 (JObj [("page", JStr "1")]) ∈ trace w'
    /\ validator_for Sample.gate Query = Some validate
    /\ 6 = fn_id validate
    /\ JObj [("page", JStr "1")] = query Sample.good_request.
Proof.
  destruct (validators_get_their_own_part
              Sample.gate (Sample.empty_world Sample.good_request))
    as (w' & d & Hrun & Htr & _ & Hown).
  assert (Hin : EvValidate Query 6 (JObj [("page", JStr "1")]) ∈ d).
  { vm_compute in Hrun. injection Hrun as <-. simpl in Htr.
    apply app_inv_head with (l := []) in Htr. subst d.
    right. left. }
  destruct (Hown _ _ _ Hin) as (validate & Hval & Hid & Hdata).
  exists w', validate. split; [exact Hrun|].
  split; [rewrite Htr; exact Hin|].
  split; [exact Hval|]. split; [exact Hid | exact Hdata].
Defined.

(** ** What a response says about the request *)

Lemma stage_message_inj p q : stage_message p = stage_message q -> p = q.
Proof. destruct p, q; simpl; intros H; try reflexivity; discriminate H. Qed.

(** X4. The message of a response tells which part was rejected: when the
    handler sends a payload whose [error] is the message of part [p], then
    [p] is the first part, in the order body, query, headers, whose validator
    rejected the request; every configured validator before it accepted. *)
Theorem message_identifies_rejected_part c w w' d p payload :
  requestHandler c w = Ok tt w' ->
  trace w' = trace w ++ d ->
  payload ∈ sent_payloads d ->
  opt_member payload "error" = JStr (stage_message p) ->
  first_rejected c (request w) = Some p.
Proof.
  intros Hrun Htr Hin Hmsg.
  destruct (handler_run c w) as (w0 & Hrun0 & Htr0 & _).
  rewrite Hrun0 in Hrun. injection Hrun as ->.
  rewrite Htr0 in Htr. apply app_inv_head in Htr. subst d.
  unfold first_rejected.
  destruct (find (rejects c (request w)) stage_order) as [p0|] eqn:Hfind.
  - destruct (find_some _ _ Hfind) as [_ Hrej].
    apply rejects_validator in Hrej as (validate & Hval & _).
    destruct (gate_events_refusal c (request w) stage_order p0 validate Hfind Hval)
      as (pre & Hev & Hchk & _).
    destruct (only_checks_silent pre Hchk) as (Hp & _).
    rewrite Hev in Hin. unfold sent_payloads in *.
    rewrite omap_app, Hp in Hin. simpl in Hin.
    rewrite elem_of_cons, elem_of_nil in Hin. destruct Hin as [->|[]].
    simpl in Hmsg. injection Hmsg as Hmsg.
    f_equal. now apply stage_message_inj.
  - destruct (gate_events_pass c (request w) stage_order Hfind)
      as (pre & Hev & Hchk & _).
    destruct (only_checks_silent pre Hchk) as (Hp & _).
    rewrite Hev in Hin. unfold sent_payloads in *.
    rewrite omap_app, Hp in Hin. simpl in Hin.
    now apply elem_of_nil in Hin.
Qed.

Lemma message_identifies_rejected_part_witness :
  first_rejected Sample.gate
    (request (Sample.empty_world Sample.bad_request)) = Some Body.
Proof.
  eapply (message_identifies_rejected_part
            Sample.gate (Sample.empty_world Sample.bad_request) _ _ Body).
  - vm_compute. reflexivity.
  - simpl. reflexivity.
  - left.
  - reflexivity.
Defined.

(** ** What a run leaves behind *)

Lemma part_data_set_same p d req :
  part_data p (set_part_data p d req) = d.
Proof. destruct p; reflexivity. Qed.

Lemma checked_parts_ext c r1 r2 order :
  (forall q, q ∈ order -> part_data q r1 = part_data q r2) ->
  checked_parts c r1 order = checked_parts c r2 order.
Proof.
  induction order as [|p rest IH]; intros Hparts; simpl; [reflexivity|].
  rewrite IH by (intros q Hq; apply Hparts; now right).
  rewrite (Hparts p) by now left. reflexivity.
Qed.

Lemma find_rejects_ext c r1 r2 order :
  (forall q, q ∈ order -> part_data q r1 = part_data q r2) ->
  find (rejects c r1) order = find (rejects c r2) order.
Proof.
  induction order as [|p rest IH]; intros Hparts; simpl; [reflexivity|].
  rewrite IH by (intros q Hq; apply Hparts; now right).
  unfold rejects. rewrite (Hparts p) by now left. reflexivity.
Qed.

Lemma request_after_call_other p q validate w :
  p <> q ->
  part_data q (request (after_call p validate w)) = part_data q (request w).
Proof. intros Hne. simpl. now apply part_data_set_other. Qed.

Lemma parts_after_call p validate w (rest : list Part) :
  p ∉ rest ->
  forall q, q ∈ rest ->
    part_data q (request (after_call p validate w)) = part_data q (request w).
Proof.
  intros Hnotin q Hq. apply request_after_call_other.
  intros ->. contradiction.
Qed.

Lemma errors_after_call_other p validate w id :
  fn_id validate <> id ->
  fn_errors (after_call p validate w) !! id = fn_errors w !! id.
Proof.
  intros Hne. unfold after_call; simpl.
  destruct (reported _); [now apply lookup_insert_ne | now apply lookup_delete_ne].
Qed.

(** The [errors] property of a validator that was not called is not written. *)
Lemma stages_store order :
  NoDup order ->
  forall c w f w',
    stages order c w = Ok f w' ->
    forall id,
      (forall p validate,
         p ∈ checked_parts c (request w) order ->
         validator_for c p = Some validate -> fn_id validate <> id) ->
      fn_errors w' !! id = fn_errors w !! id.
Proof.
  induction 1 as [|p rest Hnotin Hnodup IH]; intros c w f w' Hrun id Hid.
  - injection Hrun as _ <-. reflexivity.
  - simpl in Hrun, Hid. unfold seq, bind in Hrun. rewrite stage_run in Hrun.
    destruct (validator_for c p) as [validate|] eqn:Hval.
    + assert (Hne : fn_id validate <> id).
      { apply (Hid p validate); [now left | exact Hval]. }
      destruct (valid (fn_call validate (part_data p (request w)))) eqn:Hok.
      * rewrite (IH c _ f w' Hrun id).
        -- now apply errors_after_call_other.
        -- intros q vq Hq. apply Hid. right.
           rewrite <- (checked_parts_ext c _ _ rest
                         (parts_after_call p validate w rest Hnotin)).
           exact Hq.
      * injection Hrun as _ <-.
        change (fn_errors (after_call p validate w) !! id = fn_errors w !! id).
        now apply errors_after_call_other.
    + apply (IH c w f w' Hrun id Hid).
Qed.

(** After a refusal the failing validator's [errors] still holds the list its
    [details] were built from. *)
Lemma stages_refusal_slot order :
  NoDup order ->
  forall c w f w' p validate,
    stages order c w = Ok f w' ->
    find (rejects c (request w)) order = Some p ->
    validator_for c p = Some validate ->
    fn_errors w' !! fn_id validate
    = reported (fn_call validate (part_data p (request w))).
Proof.
  induction 1 as [|p0 rest Hnotin Hnodup IH];
    intros c w f w' p validate Hrun Hfind Hval; [discriminate|].
  simpl in Hrun, Hfind. unfold seq, bind in Hrun. rewrite stage_run in Hrun.
  unfold rejects in Hfind at 1.
  destruct (validator_for c p0) as [v0|] eqn:Hv0.
  - destruct (valid (fn_call v0 (part_data p0 (request w)))) eqn:Hok;
      simpl in Hfind.
    + assert (Hp : p ∈ rest).
      { apply list_elem_of_In. exact (proj1 (find_some _ _ Hfind)). }
      rewrite (IH c _ f w' p validate Hrun); [| |exact Hval].
      * rewrite (parts_after_call p0 v0 w rest Hnotin p Hp). reflexivity.
      * rewrite (find_rejects_ext c _ (request w) rest
                   (parts_after_call p0 v0 w rest Hnotin)).
        exact Hfind.
    + injection Hfind as ->. rewrite Hv0 in Hval. injection Hval as ->.
      injection Hrun as _ <-. apply errors_after_call.
  - apply (IH c w f w' p validate Hrun Hfind Hval).
Qed.

(** What the run does to each part of the request, whatever the validators
    do with the data they are given. *)
Lemma stages_request order :
  NoDup order ->
  forall c w f w',
    stages order c w = Ok f w' ->
    forall q,
      (q ∉ checked_parts c (request w) order ->
       part_data q (request w') = part_data q (request w))
      /\ (forall validate,
            q ∈ checked_parts c (request w) order ->
            validator_for c q = Some validate ->
            part_data q (request w')
            = data_after (fn_call validate (part_data q (request w)))).
Proof.
  induction 1 as [|p rest Hnotin Hnodup IH]; intros c w f w' Hrun q.
  - injection Hrun as _ <-. split; [reflexivity|].
    intros validate Hin. now apply elem_of_nil in Hin.
  - simpl in Hrun. unfold seq, bind in Hrun. rewrite stage_run in Hrun. simpl.
    destruct (validator_for c p) as [vp|] eqn:Hvp.
    + destruct (valid (fn_call vp (part_data p (request w)))) eqn:Hok.
      * destruct (IH c _ f w' Hrun q) as [Hout Hin].
        rewrite (checked_parts_ext c _ (request w) rest
                   (parts_after_call p vp w rest Hnotin)) in Hout, Hin.
        assert (Hfresh : p ∉ checked_parts c (request w) rest).
        { intros Hp. apply Hnotin.
          exact (elem_of_sublist _ _ _ Hp (checked_parts_sublist c _ rest)). }
        split.
        -- intros Hq. rewrite Hout by (intros Hq'; apply Hq; now right).
           apply request_after_call_other. intros ->. apply Hq. now left.
        -- intros validate Hq Hval. apply elem_of_cons in Hq as [->|Hq].
           ++ rewrite Hvp in Hval. injection Hval as <-.
              destruct (IH c _ f w' Hrun p) as [Hout' _].
              rewrite (checked_parts_ext c _ (request w) rest
                         (parts_after_call p vp w rest Hnotin)) in Hout'.
              rewrite (Hout' Hfresh). simpl. apply part_data_set_same.
           ++ rewrite (Hin validate Hq Hval).
              rewrite request_after_call_other; [reflexivity|].
              intros ->. contradiction.
      * injection Hrun as _ <-. split.
        -- intros Hq. simpl. apply part_data_set_other.
           intros ->. apply Hq. now left.
        -- intros validate Hq Hval.
           apply elem_of_cons in Hq as [->|Hq]; [|now apply elem_of_nil in Hq].
           rewrite Hvp in Hval. injection Hval as <-.
           simpl. apply part_data_set_same.
    + apply (IH c w f w' Hrun q).
Qed.

Lemma requestHandler_stages_run c w w' :
  requestHandler c w = Ok tt w' ->
  exists f, stages stage_order c w = Ok f w'.
Proof.
  rewrite requestHandler_stages. unfold run_body, bind.
  destruct (stages stage_order c w) as [f w0|err w0]; [|discriminate].
  intros [= <-]. now exists f.
Qed.

(** X5. The handler writes the [errors] property of the validators it calls
    and of no other: a validator that is not reached (because it is not
    configured for a checked part, or because an earlier part was rejected)
    keeps whatever [errors] it had. *)
Theorem uncalled_validators_keep_errors c w w' id :
  requestHandler c w = Ok tt w' ->
  (forall p validate,
     p ∈ checked_parts c (request w) [Body; Query; Headers] ->
     validator_for c p = Some validate -> fn_id validate <> id) ->
  fn_errors w' !! id = fn_errors w !! id.
Proof.
  intros Hrun Hid.
  destruct (requestHandler_stages_run c w w' Hrun) as [f Hst].
  exact (stages_store stage_order stage_order_NoDup c w f w' Hst id Hid).
Qed.

Lemma uncalled_validators_keep_errors_witness :
  exists w',
    requestHandler Sample.gate
      (mkWorld Sample.bad_request
               {[ 6%nat := [Sample.required_error "page"] ]} []) = Ok tt w'
    /\ status_codes (trace w') = [400%Z]
    /\ fn_errors w' !! 6%nat = Some [Sample.required_error "page"].
Proof.
  destruct (requestHandler Sample.gate
              (mkWorld Sample.bad_request
                       {[ 6%nat := [Sample.required_error "page"] ]} []))
    as [[] w'|err w'] eqn:Hrun; [|vm_compute in Hrun; discriminate Hrun].
  exists w'. split; [reflexivity|].
  assert (Hkeep : fn_errors w' !! 6%nat = Some [Sample.required_error "page"]).
  { apply (uncalled_validators_keep_errors Sample.gate _ w' 6%nat Hrun).
    intros p validate Hp. simpl in Hp.
    apply elem_of_cons in Hp as [->|Hp]; [|now apply elem_of_nil in Hp].
    intros [= <-]. discriminate. }
  split; [|exact Hkeep].
  vm_compute in Hrun. injection Hrun as <-. reflexivity.
Defined.

(** X6. After a 400 response the [errors] property of the validator that
    rejected the request holds the error list that validator reported for
    this request, the one [details] was built from, also when the same
    function object serves several parts. *)
Theorem rejecting_validator_keeps_its_errors c w w' p validate :
  requestHandler c w = Ok tt w' ->
  first_rejected c (request w) = Some p ->
  validator_for c p = Some validate ->
  fn_errors w' !! fn_id validate
  = reported (fn_call validate (part_data p (request w))).
Proof.
  intros Hrun Hfirst Hval.
  destruct (requestHandler_stages_run c w w' Hrun) as [f Hst].
  exact (stages_refusal_slot stage_order stage_order_NoDup
           c w f w' p validate Hst Hfirst Hval).
Qed.

Lemma rejecting_validator_keeps_its_errors_witness :
  exists w',
    requestHandler Sample.gate (Sample.empty_world Sample.bad_request) = Ok tt w'
    /\ fn_errors w' !! 12%nat = Some [Sample.required_error "email"].
Proof.
  eexists. split; [vm_compute; reflexivity|].
  exact (rejecting_validator_keeps_its_errors
           Sample.gate (Sample.empty_world Sample.bad_request) _
           Body (Sample.required_validator ["email"; "name"])
           eq_refl eq_refl eq_refl).
Defined.

(** X7. Whatever a validator does with the data it is given, the handler
    itself writes nothing to the request: a part whose validator was not
    called is left as it was, and a part whose validator was called is in the
    state that one call left it in. *)
Theorem request_parts_after_run c w w' q :
  requestHandler c w = Ok tt w' ->
  (q ∉ checked_parts c (request w) [Body; Query; Headers] ->
   part_data q (request w') = part_data q (request w))
  /\ (forall validate,
        q ∈ checked_parts c (request w) [Body; Query; Headers] ->
        validator_for c q = Some validate ->
        part_data q (request w')
        = data_after (fn_call validate (part_data q (request w)))).
Proof.
  intros Hrun.
  destruct (requestHandler_stages_run c w w' Hrun) as [f Hst].
  exact (stages_request stage_order stage_order_NoDup c w f w' Hst q).
Qed.

Lemma request_parts_after_run_witness :
  exists w',
    requestHandler
      (mkCaptured (JBool true) Sample.page_schema Sample.key_schema
                  (Some Sample.defaulting_validator)
                  (Some (Sample.required_validator ["page"]))
                  (Some Sample.defaulting_validator))
      (Sample.empty_world Sample.bad_request) = Ok tt w'
    /\ status_codes (trace w') = [400%Z]
    /\ body (request w') = JObj [("name", JStr "Al"); ("role", JStr "user")]
    /\ headers (request w') = JObj [].
Proof.
  eexists. split; [vm_compute; reflexivity|]. split; [reflexivity|].
  split.
  - apply (proj2 (request_parts_after_run
                    (mkCaptured (JBool true) Sample.page_schema Sample.key_schema
                                (Some Sample.defaulting_validator)
                                (Some (Sample.required_validator ["page"]))
                                (Some Sample.defaulting_validator))
                    (Sample.empty_world Sample.bad_request) _ Body eq_refl)
                 Sample.defaulting_validator).
    + left.
    + reflexivity.
  - apply (proj1 (request_parts_after_run
                    (mkCaptured (JBool true) Sample.page_schema Sample.key_schema
                                (Some Sample.defaulting_validator)
                                (Some (Sample.required_validator ["page"]))
                                (Some Sample.defaulting_validator))
                    (Sample.empty_world Sample.bad_request) _ Headers eq_refl)).
    simpl. rewrite !elem_of_cons, elem_of_nil.
    intros [?|[?|[]]]; discriminate.
Defined.

(** ** More on the factory *)

(** X8. The factory call handles no request: whether it returns a handler or
    throws, the request and every validator's [errors] are as before, and its
    calls are only [new Ajv()], [addFormats] and [compile]: it calls no
    validator, sets no status, sends nothing and does not call [next()]. *)
Theorem factory_handles_no_request ajv_compile s w :
  request (final_world (createMiddleware ajv_compile s w)) = request w
  /\ fn_errors (final_world (createMiddleware ajv_compile s w)) = fn_errors w
  /\ exists d,
       trace (final_world (createMiddleware ajv_compile s w))
       = trace w ++ [EvNewAjv; EvAddFormats] ++ d
       /\ d = map EvCompile (compiled_schemas d).
Proof.
  rewrite createMiddleware_run.
  repeat match goal with
  | |- context [compile_if_given ajv_compile ?x ?w0] =>
      destruct (compile_if_given_cases ajv_compile x w0)
        as [[_ ->]|[[_ (? & _ & ->)]|[_ (? & _ & ->)]]];
      cbv beta iota
  end.
  all: split; [reflexivity|]; split; [reflexivity|].
  all: simpl; eexists; rewrite <- ?app_assoc; simpl.
  all: split; [f_equal; f_equal; f_equal; reflexivity|]; reflexivity.
Qed.

(** X9. Compilation is fail-fast and in source order: the schemas handed to
    the compiler are the truthy options in the order body, query, headers,
    up to and including the first one the engine refuses.  A schema that
    comes after a refused one is never compiled. *)
Theorem factory_stops_at_first_refusal ajv_compile s w :
  exists d,
    trace (final_world (createMiddleware ajv_compile s w)) = trace w ++ d
    /\ compiled_schemas d
       = attempted ajv_compile (List.filter truthy (schema_options s)).
Proof.
  destruct s as [b q h].
  rewrite createMiddleware_run. unfold schema_options.
  cbn [opt_bodySchema opt_querySchema opt_headersSchema List.filter].
  repeat match goal with
  | |- context [compile_if_given ajv_compile ?x ?w0] =>
      let Ht := fresh "Ht" in
      let Hc := fresh "Hc" in
      destruct (compile_if_given_cases ajv_compile x w0)
        as [[Ht ->]|[[Ht (? & Hc & ->)]|[Ht (? & Hc & ->)]]];
      rewrite ?Ht; cbv beta iota; cbn [attempted]; rewrite ?Hc
  end.
  all: simpl; eexists; rewrite <- ?app_assoc; split; reflexivity.
Qed.

Lemma handler_ignores_unused_schemas b q h b' q' h' vb vq vh w :
  (vb = None \/ b = b') ->
  (vq = None \/ q = q') ->
  (vh = None \/ h = h') ->
  requestHandler (mkCaptured b q h vb vq vh) w
  = requestHandler (mkCaptured b' q' h' vb vq vh) w.
Proof.
  intros [->| ->] [->| ->] [->| ->]; reflexivity.
Qed.

(** X10. A falsy schema option ([false], [null], [0], the empty string) is
    the same as no option at all: the factory makes the same calls and ends
    in the same state, throws the same error if it throws, and the handler
    it returns does with every request what the handler built without that
    option does. *)
Theorem falsy_schema_is_no_schema ajv_compile s w :
  match createMiddleware ajv_compile s w,
        createMiddleware ajv_compile (drop_falsy s) w with
  | Ok handler w1, Ok handler' w1' =>
      w1 = w1' /\ forall w2, handler w2 = handler' w2
  | Thrown err w1, Thrown err' w1' => err = err' /\ w1 = w1'
  | _, _ => False
  end.
Proof.
  destruct s as [b q h].
  unfold drop_falsy, absent_if_falsy. rewrite !createMiddleware_run.
  cbn [opt_bodySchema opt_querySchema opt_headersSchema].
  destruct (truthy b) eqn:Hb, (truthy q) eqn:Hq, (truthy h) eqn:Hh.
  all: repeat (rewrite !compile_if_given_run;
               rewrite ?Hb, ?Hq, ?Hh; cbn [truthy]; cbv beta iota;
               try match goal with
                   | |- context [match ?f ?x with inl _ => _ | inr _ => _ end] =>
                       destruct (f x)
                   end).
  all: split; try reflexivity.
  all: intros w2; apply handler_ignores_unused_schemas; auto.
Qed.

(** ** What reaches the next handler, and what the outcome depends on *)

(** X11. [next()] is called only for requests that every configured
    validator accepts: if a run calls [next()], no configured validator
    rejects its part of the request. *)
Theorem next_only_for_accepted_requests c w w' d :
  requestHandler c w = Ok tt w' ->
  trace w' = trace w ++ d ->
  EvNext ∈ d ->
  all_accept c (request w).
Proof.
  intros Hrun Htr Hnext.
  destruct (handler_run c w) as (w0 & Hrun0 & Htr0 & _).
  rewrite Hrun0 in Hrun. injection Hrun as ->.
  rewrite Htr0 in Htr. apply app_inv_head in Htr. subst d.
  destruct (find (rejects c (request w)) stage_order) as [p0|] eqn:Hfind.
  - exfalso.
    destruct (find_some _ _ Hfind) as [_ Hrej].
    apply rejects_validator in Hrej as (validate & Hval & _).
    destruct (gate_events_refusal c (request w) stage_order p0 validate Hfind Hval)
      as (pre & Hev & Hchk & _).
    rewrite Hev in Hnext. apply elem_of_app in Hnext as [Hin|Hin].
    + unfold only_checks in Hchk. rewrite Forall_forall in Hchk.
      exact (Hchk EvNext Hin).
    + unfold refusal_events in Hin.
      rewrite !elem_of_cons, elem_of_nil in Hin.
      destruct Hin as [?|[?|[]]]; discriminate.
  - intros p validate Hval.
    assert (Hrej : rejects c (request w) p = false).
    { apply (find_none _ _ Hfind). destruct p; simpl; auto. }
    unfold rejects in Hrej. rewrite Hval in Hrej.
    now apply negb_false_iff in Hrej.
Qed.

Lemma next_only_for_accepted_requests_witness :
  all_accept Sample.gate (request (Sample.empty_world Sample.good_request)).
Proof.
  eapply (next_only_for_accepted_requests
            Sample.gate (Sample.empty_world Sample.good_request)).
  - vm_compute. reflexivity.
  - simpl. reflexivity.
  - right. right. right. left.
Defined.

Lemma gate_events_ext_checked c r1 r2 order :
  (forall q, q ∈ checked_parts c r1 order -> part_data q r1 = part_data q r2) ->
  gate_events c r1 order = gate_events c r2 order.
Proof.
  induction order as [|p rest IH]; simpl; [reflexivity|].
  destruct (validator_for c p) as [validate|]; [|exact IH].
  intros Hparts.
  assert (Hp : part_data p r1 = part_data p r2) by (apply Hparts; now left).
  unfold refusal_events. rewrite <- Hp.
  destruct (valid (fn_call validate (part_data p r1))); [|reflexivity].
  f_equal. apply IH. intros q Hq. apply Hparts. now right.
Qed.

(** X12. The outcome depends only on the parts that are checked: two
    requests that agree on every part whose validator is called for the
    first one get the same run.  So once the body is rejected, the response
    is the same whatever the query and the headers are, and a part without a
    validator never matters. *)
Theorem outcome_depends_on_checked_parts c w1 w2 :
  (forall q,
     q ∈ checked_parts c (request w1) [Body; Query; Headers] ->
     part_data q (request w1) = part_data q (request w2)) ->
  exists d w1' w2',
    requestHandler c w1 = Ok tt w1'
    /\ requestHandler c w2 = Ok tt w2'
    /\ trace w1' = trace w1 ++ d
    /\ trace w2' = trace w2 ++ d.
Proof.
  intros Hparts.
  destruct (handler_run c w1) as (w1' & Hrun1 & Htr1 & _).
  destruct (handler_run c w2) as (w2' & Hrun2 & Htr2 & _).
  exists (gate_events c (request w1) stage_order), w1', w2'.
  repeat split; try assumption.
  rewrite Htr2. f_equal. symmetry. now apply gate_events_ext_checked.
Qed.

Lemma outcome_depends_on_checked_parts_witness :
  exists d w1' w2',
    requestHandler Sample.gate (Sample.empty_world Sample.bad_request) = Ok tt w1'
    /\ requestHandler Sample.gate
         (Sample.empty_world
            (mkRequest (body Sample.bad_request)
                       (query Sample.good_request)
                       (headers Sample.good_request) []))
       = Ok tt w2'
    /\ trace w1' = d
    /\ trace w2' = d.
Proof.
  apply (outcome_depends_on_checked_parts Sample.gate
           (Sample.empty_world Sample.bad_request)
           (Sample.empty_world
              (mkRequest (body Sample.bad_request)
                         (query Sample.good_request)
                         (headers Sample.good_request) []))).
  intros q Hq. simpl in Hq.
  apply elem_of_cons in Hq as [->|Hq]; [reflexivity|].
  now apply elem_of_nil in Hq.
Defined.

(** ** The order of the checks, from the factory's options *)

Lemma createMiddleware_closure ajv_compile s w handler w0 :
  createMiddleware ajv_compile s w = Ok handler w0 ->
  handler = requestHandler (captured_by ajv_compile s).
Proof.
  rewrite createMiddleware_run. unfold captured_by, kept_validator.
  repeat match goal with
  | |- context [compile_if_given ajv_compile ?x ?w0] =>
      let Ht := fresh "Ht" in
      let Hc := fresh "Hc" in
      destruct (compile_if_given_cases ajv_compile x w0)
        as [[Ht ->]|[[Ht (? & Hc & ->)]|[Ht (? & Hc & ->)]]];
      rewrite ?Ht, ?Hc; cbv beta iota
  end.
  all: try discriminate.
  all: intros [= <- _]; reflexivity.
Qed.

(** The boolean schema [false] is a configured schema that every body
    violates (the engine compiles it to a validator that rejects every
    value).  With it as [bodySchema], a request that also violates the
    [querySchema] is answered with the query-stage failure: the body is not
    checked, the query validator is called, and the payload carries the
    message "Query parameters validation failed". *)
Lemma false_body_schema_query_reported :
  exists handler w0 w' vb vq,
    createMiddleware Sample.ajv_compile
      (mkSchemas (JBool false) Sample.page_schema JUndefined)
      (Sample.empty_world Sample.bad_request) = Ok handler w0
    /\ Sample.ajv_compile (JBool false) = inr vb
    /\ valid (fn_call vb (body Sample.bad_request)) = false
    /\ Sample.ajv_compile Sample.page_schema = inr vq
    /\ valid (fn_call vq (query Sample.bad_request)) = false
    /\ handler (Sample.empty_world Sample.bad_request) = Ok tt w'
    /\ validated_sites (trace w') = [Query]
    /\ sent_payloads (trace w')
       = [ failure_payload "Query parameters validation failed"
             Sample.page_schema (Some [Sample.required_error "page"]) ]
    /\ trace w'
       <> [ EvValidate Body (fn_id vb) (body Sample.bad_request);
            EvStatus 400;
            EvJson (failure_payload "Request body validation failed"
                      (JBool false)
                      (reported (fn_call vb (body Sample.bad_request)))) ].
Proof.
  eexists _, _, _, _, _. repeat split; try reflexivity. discriminate.
Qed.

(** C1 (amended). For the handler built from the options [s]: a request
    that violates both the body schema, when that schema is truthy (a schema
    object or the boolean schema [true]), and the query schema is answered
    with the body-stage failure only: the run consists of the call of the
    body validator, [res.status(400)] and [res.json] with the message
    "Request body validation failed", the body schema and the body
    validator's findings; the query and headers validators are not called
    and [next()] is not called.  For every request, the parts that have a
    validator (those whose schema is truthy) are checked in the order body,
    query, headers, stopping at the first rejected part. *)
Theorem truthy_body_schema_failure_reported_alone ajv_compile s w handler w0 w1 :
  createMiddleware ajv_compile s w = Ok handler w0 ->
  exists w' d,
    handler w1 = Ok tt w'
    /\ trace w' = trace w1 ++ d
    /\ validated_sites d
       = checked_parts (captured_by ajv_compile s) (request w1)
                       [Body; Query; Headers]
    /\ forall vb vq,
         truthy (opt_bodySchema s) = true ->
         ajv_compile (opt_bodySchema s) = inr vb ->
         valid (fn_call vb (body (request w1))) = false ->
         ajv_compile (opt_querySchema s) = inr vq ->
         valid (fn_call vq (query (request w1))) = false ->
         d = [ EvValidate Body (fn_id vb) (body (request w1));
               EvStatus 400;
               EvJson (JObj [ ("error", JStr "Request body validation failed");
                              ("schema", opt_bodySchema s);
                              ("details",
                               details (reported (fn_call vb (body (request w1))))) ]) ].
Proof.
  intros Hmk. rewrite (createMiddleware_closure ajv_compile s w handler w0 Hmk).
  destruct (handler_run (captured_by ajv_compile s) w1) as (w' & Hrun & Htr & _).
  exists w', (gate_events (captured_by ajv_compile s) (request w1) stage_order).
  split; [exact Hrun|]. split; [exact Htr|].
  split; [apply validated_sites_gate_events|].
  intros vb vq Htruthy Hvb Hno _ _.
  simpl. unfold kept_validator. rewrite Htruthy, Hvb, Hno. reflexivity.
Qed.

Lemma truthy_body_schema_failure_reported_alone_witness :
  exists handler w0 w',
    createMiddleware Sample.ajv_compile
      (mkSchemas Sample.user_schema Sample.page_schema Sample.key_schema)
      (Sample.empty_world Sample.good_request) = Ok handler w0
    /\ handler (Sample.empty_world Sample.bad_request) = Ok tt w'
    /\ trace w' =
       [ EvValidate Body 12 (JObj [("name", JStr "Al")]);
         EvStatus 400;
         EvJson (JObj [ ("error", JStr "Request body validation failed");
                        ("schema", Sample.user_schema);
                        ("details",
                         JArr [JObj [ ("field", JStr "email");
                                      ("message",
                                       JStr "must have required property 'email'");
                                      ("keyword", JStr "required");
                                      ("params",
                                       JObj [("missingProperty", JStr "email")]) ]]) ]) ].
Proof.
  destruct (createMiddleware Sample.ajv_compile
              (mkSchemas Sample.user_schema Sample.page_schema Sample.key_schema)
              (Sample.empty_world Sample.good_request))
    as [handler w0|err w0] eqn:Hmk; [|vm_compute in Hmk; discriminate Hmk].
  destruct (truthy_body_schema_failure_reported_alone
              Sample.ajv_compile
              (mkSchemas Sample.user_schema Sample.page_schema Sample.key_schema)
              (Sample.empty_world Sample.good_request)
              handler w0 (Sample.empty_world Sample.bad_request) Hmk)
    as (w' & d & Hrun & Htr & _ & Hbody).
  exists handler, w0, w'. split; [reflexivity|]. split; [exact Hrun|].
  rewrite Htr.
  rewrite (Hbody (Sample.required_validator ["email"; "name"])
                 (Sample.required_validator ["page"])
                 eq_refl eq_refl eq_refl eq_refl eq_refl).
  reflexivity.
Defined.
